(** * Query interpretation over an in-memory spreadsheet table

    A shallow embedding of [processExcelQuery] and [generateSummary]
    (the rule-based filter / sort / summarize pipeline of the
    application component) together with the part of the JavaScript
    run time these two functions rely on.

    Modelling conventions.
    - Strings are sequences of code units in the Latin-1 range; one
      [ascii] is one code unit.
    - Numbers: IEEE doubles are idealised as exact rationals extended
      with NaN and the two infinities.  Parsing and arithmetic round
      in the run time and do not here; the two agree wherever the
      operands and the result are doubles themselves ([exactDouble]),
      and the statements that name a computed figure assume so.
    - An object is the list of its own properties in enumeration
      order (the order [Object.keys] yields): array-index keys in
      ascending numeric order first, then the other keys in creation
      order.  Members inherited from [Object.prototype] are not
      modelled: a lookup is right for names other than
      [prototypeNames], and the statements that read a cell or count
      a text through such a lookup assume so ([ordinaryName]).
    - [Array.prototype.sort] is stable; it is modelled by a stable
      insertion sort driven by the sign of the comparator result,
      which is the engine's result whenever the comparator is
      consistent on the elements sorted.  With an inconsistent
      comparator the engine's order is its own, and only the fact
      that the result is a rearrangement is used.
    - [String.prototype.localeCompare] is the host's collation; it is
      modelled for the common root order (see [localeCompare]). *)

From Stdlib Require Import List String Ascii ZArith NArith QArith Bool Lia.
From Stdlib Require Import Permutation DecimalString.
From Stdlib Require Sorted.
Import ListNotations.

Local Open Scope string_scope.

(* ================================================================= *)
(** ** The JavaScript run time used by the source *)

Module JS.

(** *** Strings *)

(** [String.prototype.toLowerCase] on a Latin-1 code unit: A-Z and
    the accented capitals U+00C0..U+00DE (except the multiplication
    sign U+00D7) move up by 32. *)
Definition lower_unit (c : ascii) : ascii :=
  let n := N_of_ascii c in
  if ((65 <=? n) && (n <=? 90)
      || (192 <=? n) && (n <=? 222) && negb (n =? 215))%N
  then ascii_of_N (n + 32) else c.

Fixpoint toLowerCase (s : string) : string :=
  match s with
  | EmptyString => EmptyString
  | String c s' => String (lower_unit c) (toLowerCase s')
  end.

(** [s.startsWith(t)] *)
Fixpoint startsWith (s t : string) {struct t} : bool :=
  match t, s with
  | EmptyString, _ => true
  | String _ _, EmptyString => false
  | String b t', String a s' => Ascii.eqb a b && startsWith s' t'
  end.

(** [s.includes(t)]: [t] occurs in [s] as a contiguous run of code
    units; the empty string occurs everywhere. *)
Fixpoint includes (s t : string) : bool :=
  startsWith s t ||
  match s with
  | EmptyString => false
  | String _ s' => includes s' t
  end.

(** [parts.join(sep)] *)
Fixpoint join (sep : string) (parts : list string) : string :=
  match parts with
  | [] => ""
  | [p] => p
  | p :: rest => p ++ sep ++ join sep rest
  end.

(** Decimal digits of a natural number, as template literals print
    [rows.length] and the frequency counts. *)
Definition decimal (n : N) : string :=
  NilZero.string_of_uint (N.to_uint n).

(** *** Numbers *)

Inductive number : Type :=
| NaN
| Inf (negative : bool)
| Fin (q : Q).

Definition isNaN (x : number) : bool :=
  match x with NaN => true | _ => false end.

Definition ofZ (z : Z) : number := Fin (inject_Z z).
Definition ofNat (n : nat) : number := Fin (inject_Z (Z.of_nat n)).

(** [x + y], exactly: the run time rounds the result to a double, so
    the two agree where the exact result is one ([exactDouble]). *)
Definition add (x y : number) : number :=
  match x, y with
  | NaN, _ | _, NaN => NaN
  | Inf a, Inf b => if Bool.eqb a b then Inf a else NaN
  | Inf a, Fin _ | Fin _, Inf a => Inf a
  | Fin p, Fin q => Fin (Qred (p + q))
  end.

(** [- x] *)
Definition neg (x : number) : number :=
  match x with
  | NaN => NaN
  | Inf a => Inf (negb a)
  | Fin q => Fin (Qred (- q))
  end.

(** [x - y] *)
Definition sub (x y : number) : number := add x (neg y).

(** Sign of a rational: -1, 0 or 1. *)
Definition Qsgn (q : Q) : Z := Z.sgn (Qnum q).

(** [x * y], exactly (the run time rounds the result to a double). *)
Definition mul (x y : number) : number :=
  match x, y with
  | NaN, _ | _, NaN => NaN
  | Inf a, Inf b => Inf (xorb a b)
  | Inf a, Fin q | Fin q, Inf a =>
      match Qsgn q with
      | Z0 => NaN
      | Zpos _ => Inf a
      | Zneg _ => Inf (negb a)
      end
  | Fin p, Fin q => Fin (Qred (p * q))
  end.

(** [x / y], exactly (the run time rounds the result to a double).
    Signed zeros are not tracked: a finite value over zero is taken
    as the infinity of the sign of the numerator. *)
Definition div (x y : number) : number :=
  match x, y with
  | NaN, _ | _, NaN => NaN
  | Inf _, Inf _ => NaN
  | Inf a, Fin q => Inf (if (Qsgn q <? 0)%Z then negb a else a)
  | Fin _, Inf _ => Fin 0
  | Fin p, Fin q =>
      match Qsgn q with
      | Z0 => match Qsgn p with
              | Z0 => NaN
              | Zpos _ => Inf false
              | Zneg _ => Inf true
              end
      | _ => Fin (Qred (p / q))
      end
  end.

(** The order of the extended rationals, as a three-way comparison;
    NaN is unordered and compares [Eq] with everything here (callers
    test [isNaN] first). *)
Definition compare (x y : number) : comparison :=
  match x, y with
  | NaN, _ | _, NaN => Eq
  | Inf a, Inf b =>
      match a, b with
      | true, false => Lt
      | false, true => Gt
      | _, _ => Eq
      end
  | Inf a, Fin _ => if a then Lt else Gt
  | Fin _, Inf b => if b then Gt else Lt
  | Fin p, Fin q => (p ?= q)%Q
  end.

(** Sign of a comparator result as [Array.prototype.sort] reads it:
    negative, zero or positive, NaN counting as zero. *)
Definition sign (x : number) : comparison :=
  match x with
  | NaN => Eq
  | Inf a => if a then Lt else Gt
  | Fin q =>
      match Qsgn q with
      | Z0 => Eq
      | Zpos _ => Gt
      | Zneg _ => Lt
      end
  end.

(** [Math.min(...values)] and [Math.max(...values)]; without
    arguments they are [+Infinity] and [-Infinity], and a NaN argument
    makes the result NaN. *)
Definition min2 (x y : number) : number :=
  if isNaN x || isNaN y then NaN
  else match compare x y with Gt => y | _ => x end.

Definition max2 (x y : number) : number :=
  if isNaN x || isNaN y then NaN
  else match compare x y with Lt => y | _ => x end.

Definition Math_min (values : list number) : number :=
  fold_left min2 values (Inf false).

Definition Math_max (values : list number) : number :=
  fold_left max2 values (Inf true).

(** A number that is a double as it stands: NaN, an infinity, or
    [m / 2^k] with [|m| < 2^53] and [k <= 1074].  On such operands,
    with such a result, the operations above are those of the run
    time; a text whose exact value is such a number is read by
    [Number] without rounding. *)
Fixpoint is_pow2 (p : positive) : bool :=
  match p with
  | xH => true
  | xO p' => is_pow2 p'
  | xI _ => false
  end.

Definition exactDouble (x : number) : bool :=
  match x with
  | Fin q =>
      let r := Qred q in
      (Z.abs (Qnum r) <? 2 ^ 53)%Z
      && is_pow2 (Qden r)
      && (Pos.size_nat (Qden r) <=? 1075)%nat
  | _ => true
  end.

(** *** Number to text *)

Definition pow10 (n : nat) : Z := Z.pow 10 (Z.of_nat n).

Definition zeros (n : nat) : string := concat "" (repeat "0" n).

Definition ndigits (z : Z) : nat := String.length (decimal (Z.to_N z)).

(** [s.slice(0, n)] and [s.slice(n)] *)
Fixpoint take (n : nat) (s : string) : string :=
  match n, s with
  | S n', String c s' => String c (take n' s')
  | _, _ => ""
  end.

Fixpoint drop (n : nat) (s : string) : string :=
  match n, s with
  | S n', String _ s' => drop n' s'
  | _, _ => s
  end.

Fixpoint strip_trailing_zeros (s : string) : string :=
  match s with
  | EmptyString => EmptyString
  | String c s' =>
      let r := strip_trailing_zeros s' in
      if Ascii.eqb c "0" && String.eqb r "" then "" else String c r
  end.

(** Rounding a non-negative rational to the nearest integer, a tie
    going to the larger one. *)
Definition round_half_up (num : Z) (den : Z) : Z :=
  ((2 * num + den) / (2 * den))%Z.

(** Least [j >= 1] with [a * 10^j >= b], searched within [fuel]. *)
Fixpoint lead_shift (fuel : nat) (j : nat) (a b : Z) : nat :=
  match fuel with
  | O => j
  | S fuel' =>
      if (b <=? a * pow10 j)%Z then j else lead_shift fuel' (S j) a b
  end.

(** The decimal exponent [n] of a positive rational [a/b]:
    [10^(n-1) <= a/b < 10^n]. *)
Definition decimal_exponent (a b : Z) : Z :=
  if (b <=? a)%Z then Z.of_nat (ndigits (a / b))
  else (1 - Z.of_nat (lead_shift (S (ndigits b)) 1 a b))%Z.

(** [Number::toString] of a positive rational [a/b]: the digits [s],
    their count [k] and the exponent [n] with [s * 10^(n-k) = a/b],
    then the four layouts of the language definition.  At most 17
    significant digits are kept. *)
Definition positive_to_string (a b : Z) : string :=
  let n := decimal_exponent a b in
  let s17 :=
    if (n <=? 17)%Z
    then round_half_up (a * pow10 (Z.to_nat (17 - n))) b
    else round_half_up a (b * pow10 (Z.to_nat (n - 17))) in
  let d := decimal (Z.to_N s17) in
  let n := (n + Z.of_nat (String.length d) - 17)%Z in
  let s := strip_trailing_zeros d in
  let k := Z.of_nat (String.length s) in
  if ((k <=? n) && (n <=? 21))%Z then
    s ++ zeros (Z.to_nat (n - k))
  else if ((0 <? n) && (n <=? 21))%Z then
    take (Z.to_nat n) s ++ "." ++ drop (Z.to_nat n) s
  else if ((-6 <? n) && (n <=? 0))%Z then
    "0." ++ zeros (Z.to_nat (- n)) ++ s
  else
    let e := (n - 1)%Z in
    let es := (if (e <? 0)%Z then "-" else "+") ++ decimal (Z.abs_N e) in
    if (k =? 1)%Z then s ++ "e" ++ es
    else take 1 s ++ "." ++ drop 1 s ++ "e" ++ es.

(** [Number::toString(x)], radix 10. *)
Definition toString (x : number) : string :=
  match x with
  | NaN => "NaN"
  | Inf a => if a then "-Infinity" else "Infinity"
  | Fin q =>
      match Qnum q with
      | Z0 => "0"
      | Zpos a => positive_to_string (Zpos a) (Zpos (Qden q))
      | Zneg a => "-" ++ positive_to_string (Zpos a) (Zpos (Qden q))
      end
  end.

(** [x.toFixed(f)] *)
Definition toFixed (f : nat) (x : number) : string :=
  match x with
  | Fin q =>
      let a := Z.abs (Qnum q) in
      let b := Zpos (Qden q) in
      if (b * pow10 21 <=? a)%Z then toString x
      else
        let n := round_half_up (a * pow10 f) b in
        let m := decimal (Z.to_N n) in
        let m :=
          match f with
          | O => m
          | _ =>
              let k := String.length m in
              let m := if (k <=? f)%nat then zeros (f + 1 - k) ++ m else m in
              let k := String.length m in
              take (k - f) m ++ "." ++ drop (k - f) m
          end in
        (if (Qnum q <? 0)%Z then "-" else "") ++ m
  | _ => toString x
  end.

(** *** Text to number *)

(** [StrWhiteSpaceChar] within Latin-1: TAB, LF, VT, FF, CR, SP and
    NBSP. *)
Definition is_white_space (c : ascii) : bool :=
  let n := N_of_ascii c in
  ((9 <=? n) && (n <=? 13) || (n =? 32) || (n =? 160))%N.

Fixpoint trimStart (s : string) : string :=
  match s with
  | String c s' => if is_white_space c then trimStart s' else s
  | EmptyString => EmptyString
  end.

Fixpoint trimEnd (s : string) : string :=
  match s with
  | String c s' =>
      let r := trimEnd s' in
      if is_white_space c && String.eqb r "" then "" else String c r
  | EmptyString => EmptyString
  end.

Definition trim (s : string) : string := trimEnd (trimStart s).

Definition digit_of (base : N) (c : ascii) : option N :=
  let n := N_of_ascii c in
  let d :=
    if ((48 <=? n) && (n <=? 57))%N then Some (n - 48)%N
    else if ((97 <=? n) && (n <=? 102))%N then Some (n - 87)%N
    else if ((65 <=? n) && (n <=? 70))%N then Some (n - 55)%N
    else None in
  match d with
  | Some v => if (v <? base)%N then Some v else None
  | None => None
  end.

(** Reads the longest run of digits of the given base: its value,
    its length and the rest of the text. *)
Fixpoint read_digits (base acc : N) (count : nat) (s : string)
  : N * nat * string :=
  match s with
  | String c s' =>
      match digit_of base c with
      | Some d => read_digits base (acc * base + d)%N (S count) s'
      | None => (acc, count, s)
      end
  | EmptyString => (acc, count, s)
  end.

(** [NonDecimalIntegerLiteral] after its two-letter prefix. *)
Definition parse_radix (base : N) (s : string) : number :=
  let '(v, count, rest) := read_digits base 0 0 s in
  match count, rest with
  | S _, EmptyString => Fin (inject_Z (Z.of_N v))
  | _, _ => NaN
  end.

(** [m * 10^e] as an exact rational. *)
Definition scale10 (m : Z) (e : Z) : Q :=
  if (0 <=? e)%Z then inject_Z (m * pow10 (Z.to_nat e))
  else Qred (Qmake m (Z.to_pos (pow10 (Z.to_nat (- e))))).

(** [ExponentPart] or nothing, up to the end of the text. *)
Definition parse_exponent (s : string) : option Z :=
  match s with
  | EmptyString => Some 0%Z
  | String c r =>
      if Ascii.eqb c "e" || Ascii.eqb c "E" then
        let '(negative, r) :=
          match r with
          | String "+" r' => (false, r')
          | String "-" r' => (true, r')
          | _ => (false, r)
          end in
        let '(v, count, rest) := read_digits 10 0 0 r in
        match count, rest with
        | S _, EmptyString =>
            Some (if negative then (- Z.of_N v)%Z else Z.of_N v)
        | _, _ => None
        end
      else None
  end.

(** [StrUnsignedDecimalLiteral] other than [Infinity]. *)
Definition parse_decimal (negative : bool) (s : string) : number :=
  let '(ip, ic, r1) := read_digits 10 0 0 s in
  let '(fp, fc, r2) :=
    match r1 with
    | String "." r => read_digits 10 0 0 r
    | _ => (0%N, O, r1)
    end in
  match (ic + fc)%nat with
  | O => NaN
  | S _ =>
      match parse_exponent r2 with
      | None => NaN
      | Some e =>
          let m := (Z.of_N ip * pow10 fc + Z.of_N fp)%Z in
          let m := if negative then (- m)%Z else m in
          Fin (scale10 m (e - Z.of_nat fc))
      end
  end.

(** [StringToNumber].  The value of a decimal literal is kept exactly;
    the run time rounds it to the nearest double, so the two agree
    on the literals whose value is a double ([exactDouble]). *)
Definition StringToNumber (s : string) : number :=
  let t := trim s in
  match t with
  | EmptyString => Fin 0
  | String "0" (String "x" r) | String "0" (String "X" r) => parse_radix 16 r
  | String "0" (String "o" r) | String "0" (String "O" r) => parse_radix 8 r
  | String "0" (String "b" r) | String "0" (String "B" r) => parse_radix 2 r
  | _ =>
      let '(negative, u) :=
        match t with
        | String "+" r => (false, r)
        | String "-" r => (true, r)
        | _ => (false, t)
        end in
      if String.eqb u "Infinity" then Inf negative
      else parse_decimal negative u
  end.

(** *** Values *)

(** What a cell of a decoded sheet, or a missing property, can be. *)
Inductive value : Type :=
| VUndefined
| VNull
| VBool (b : bool)
| VNum (x : number)
| VStr (s : string).

(** [Number(v)] *)
Definition Number (v : value) : number :=
  match v with
  | VUndefined => NaN
  | VNull => Fin 0
  | VBool b => if b then Fin 1 else Fin 0
  | VNum x => x
  | VStr s => StringToNumber s
  end.

(** [String(v)] *)
Definition String_ (v : value) : string :=
  match v with
  | VUndefined => "undefined"
  | VNull => "null"
  | VBool b => if b then "true" else "false"
  | VNum x => toString x
  | VStr s => s
  end.

End JS.

(* ================================================================= *)
(** ** Objects *)

(** An object with values in [V]: its own properties in enumeration
    order.  [set] is the only way the source creates a property, and
    it keeps the list in that order. *)
Module Obj.
Section Properties.

Context {V : Type}.

Definition t : Type := list (string * V).

(** [Object.keys(o)], [Object.values(o)]; [Object.entries(o)] is the
    list itself. *)
Definition keys (o : t) : list string := map fst o.
Definition values (o : t) : list V := map snd o.

(** The own property [k] of [o], if any. *)
Fixpoint get (o : t) (k : string) : option V :=
  match o with
  | [] => None
  | (k', v) :: o' => if String.eqb k' k then Some v else get o' k
  end.

(** A canonical numeric text denoting an integer below 2^32 - 1 is an
    array index. *)
Definition array_index (k : string) : option N :=
  let '(v, count, rest) := JS.read_digits 10 0 0 k in
  match count, rest with
  | S _, EmptyString =>
      if String.eqb (JS.decimal v) k && (v <=? 4294967294)%N
      then Some v else None
  | _, _ => None
  end.

Fixpoint replace (k : string) (v : V) (o : t) : t :=
  match o with
  | [] => []
  | (k', v') :: o' =>
      if String.eqb k' k then (k, v) :: o' else (k', v') :: replace k v o'
  end.

(** Creation of the array-index property [k] = [i]: before the first
    property that is no array index or a larger one. *)
Fixpoint create_index (i : N) (k : string) (v : V) (o : t) : t :=
  match o with
  | [] => [(k, v)]
  | (k', v') :: o' =>
      match array_index k' with
      | Some j =>
          if (j <? i)%N then (k', v') :: create_index i k v o'
          else (k, v) :: o
      | None => (k, v) :: o
      end
  end.

(** [o[k] = v] *)
Definition set (k : string) (v : V) (o : t) : t :=
  match get o k with
  | Some _ => replace k v o
  | None =>
      match array_index k with
      | Some i => create_index i k v o
      | None => (o ++ [(k, v)])%list
      end
  end.

End Properties.
Arguments t : clear implicits.
End Obj.

(** [Array.prototype.sort(cmp)]: a stable insertion sort; [x] goes
    before the first [y] the comparator does not put in front of it.
    This is the engine's result when [cmp] is consistent on the list;
    otherwise only the rearrangement is the engine's. *)
Section Sort.

Context {A : Type} (cmp : A -> A -> JS.number).

Fixpoint sort_insert (x : A) (sorted : list A) : list A :=
  match sorted with
  | [] => [x]
  | y :: sorted' =>
      match JS.sign (cmp x y) with
      | Gt => y :: sort_insert x sorted'
      | _ => x :: sorted
      end
  end.

Definition sort (l : list A) : list A := fold_right sort_insert [] l.

End Sort.

(* ================================================================= *)
(** ** The application: tables, queries and results *)

Import JS.

(** A row of a decoded sheet: column name to cell.  [row[col]] is
    [undefined] when the row has no such cell and the name is not one
    every object inherits ([prototypeNames]); under an inherited name
    the run time finds the inherited member, which [cell] does not
    model. *)
Definition row : Type := Obj.t value.

Definition cell (r : row) (col : string) : value :=
  match Obj.get r col with
  | Some v => v
  | None => VUndefined
  end.

Record ExcelData : Type := {
  sheets : list string;
  data : list row;
  fileName : string
}.

(** What [processExcelQuery] returns. *)
Record QueryResult : Type := {
  rows : list row;
  summary : string
}.

(** *** Intent keywords *)

Definition isFilterQuery (queryLower : string) : bool :=
  includes queryLower "filter" ||
  includes queryLower "show" ||
  includes queryLower "only" ||
  includes queryLower "which" ||
  includes queryLower "where".

Definition isSortQuery (queryLower : string) : bool :=
  includes queryLower "sort" ||
  includes queryLower "order by" ||
  includes queryLower "arrange".

Definition isSummarizeQuery (queryLower : string) : bool :=
  includes queryLower "summarize" ||
  includes queryLower "summary" ||
  includes queryLower "stats" ||
  includes queryLower "statistics" ||
  includes queryLower "count".

Definition isDescending (queryLower : string) : bool :=
  includes queryLower "descending" ||
  includes queryLower "desc" ||
  includes queryLower "high to low" ||
  includes queryLower "largest" ||
  includes queryLower "highest".

(** *** Resolution of columns and values *)

(** [excelData.data.length > 0 ? Object.keys(excelData.data[0]) : []] *)
Definition columns_of (data : list row) : list string :=
  match data with
  | [] => []
  | first :: _ => Obj.keys first
  end.

(** The [for (const col of columns)] loop: the first column whose
    lower-cased name occurs in the query, or the empty text. *)
Fixpoint findColumn (columns : list string) (queryLower : string) : string :=
  match columns with
  | [] => ""
  | col :: rest =>
      if includes queryLower (toLowerCase col) then col
      else findColumn rest queryLower
  end.

Definition commonValues : list string :=
  ["ok"; "not ok"; "yes"; "no"; "true"; "false"; "pass"; "fail"].

Definition valueMatches (queryLower : string) : list string :=
  filter (fun val => includes queryLower val) commonValues.

(** *** The three passes over the rows *)

(** The default search: rows with some value whose text, lower-cased,
    contains the lower-cased query. *)
Definition matchesSearch (queryLower : string) (r : row) : bool :=
  existsb (fun v => includes (toLowerCase (String_ v)) queryLower)
          (Obj.values r).

Definition defaultSearch (data : list row) (queryLower : string) : list row :=
  filter (matchesSearch queryLower) data.

Definition anyColumnEquals (targetValue : string) (r : row) : bool :=
  existsb (fun '(_, val) => String.eqb (toLowerCase (String_ val)) targetValue)
          r.

Definition columnEquals (targetColumn targetValue : string) (r : row) : bool :=
  String.eqb (toLowerCase (String_ (cell r targetColumn))) targetValue.

(** [row[col] !== undefined && row[col] !== null && row[col] !== ""] *)
Definition columnPresent (targetColumn : string) (r : row) : bool :=
  match cell r targetColumn with
  | VUndefined | VNull | VStr EmptyString => false
  | _ => true
  end.

(** The body of [if (isFilterQuery)]: what [matchingRows] is after it. *)
Definition filterRows (data : list row) (queryLower : string)
    (matchingRows : list row) : list row :=
  let columns := columns_of data in
  let targetColumn := findColumn columns queryLower in
  match valueMatches queryLower with
  | targetValue :: _ =>
      if String.eqb targetColumn ""
      then filter (anyColumnEquals targetValue) data
      else filter (columnEquals targetColumn targetValue) data
  | [] =>
      if String.eqb targetColumn "" then matchingRows
      else filter (columnPresent targetColumn) data
  end.

(** Exchanges the case of an unaccented Latin letter. *)
Definition swap_unit (c : ascii) : ascii :=
  let n := N_of_ascii c in
  if ((65 <=? n) && (n <=? 90))%N then ascii_of_N (n + 32)
  else if ((97 <=? n) && (n <=? 122))%N then ascii_of_N (n - 32)
  else c.

Fixpoint swapCase (s : string) : string :=
  match s with
  | EmptyString => EmptyString
  | String c s' => String (swap_unit c) (swapCase s')
  end.

(** [a.localeCompare(b)] is the collation of the host, not a function
    of the program.  It is taken here as the root collation acts on
    texts of unaccented Latin letters: alphabetical order whatever
    the case and, between texts that differ in case only, lower case
    first at the first difference.  Statements about the order of
    texts are made for such texts only ([lettersOnly]). *)
Definition localeCompare (a b : string) : number :=
  let order :=
    match String.compare (toLowerCase a) (toLowerCase b) with
    | Eq => String.compare (swapCase a) (swapCase b)
    | decided => decided
    end in
  match order with
  | Lt => Fin (-1)
  | Eq => Fin 0
  | Gt => Fin 1
  end.

(** The comparator handed to [sort]. *)
Definition sortCompare (descending : bool) (sortColumn : string)
    (a b : row) : number :=
  let valA := cell a sortColumn in
  let valB := cell b sortColumn in
  if negb (isNaN (Number valA)) && negb (isNaN (Number valB)) then
    if descending
    then sub (Number valB) (Number valA)
    else sub (Number valA) (Number valB)
  else
    if descending
    then localeCompare (String_ valB) (String_ valA)
    else localeCompare (String_ valA) (String_ valB).

(** The body of [if (isSortQuery)]. *)
Definition sortRows (data : list row) (queryLower : string)
    (matchingRows : list row) : list row :=
  let columns := columns_of data in
  let sortColumn := findColumn columns queryLower in
  if String.eqb sortColumn "" then matchingRows
  else sort (sortCompare (isDescending queryLower) sortColumn) matchingRows.

(** *** Summary *)

Record Stats : Type := {
  min : number;
  max : number;
  sum : number;
  avg : number
}.

Definition parsesAsNumber (col : string) (r : row) : bool :=
  negb (isNaN (Number (cell r col))).

(** [rows.map(row => Number(row[col])).filter(val => !isNaN(val))] *)
Definition numericValues (rows : list row) (col : string) : list number :=
  filter (fun val => negb (isNaN val))
         (map (fun r => Number (cell r col)) rows).

Definition statsOf (values : list number) : Stats :=
  let sum := fold_left add values (Fin 0) in
  {| min := Math_min values;
     max := Math_max values;
     sum := sum;
     avg := div sum (ofNat (List.length values)) |}.

(** [new Set(rows.map(row => String(row[col])))] as its elements. *)
Definition uniqueValues (rows : list row) (col : string) : list string :=
  nodup string_dec (map (fun r => String_ (cell r col)) rows).

(** The [rows.forEach] that counts the texts of one column.  The
    table is a plain object in the source, so a text that is an
    inherited name ([prototypeNames]) is not counted there but finds
    the inherited member; the count is the source's for every other
    text. *)
Definition countValues (rows : list row) (col : string) : Obj.t nat :=
  fold_left
    (fun counts r =>
       let val := String_ (cell r col) in
       let seen := match Obj.get counts val with Some c => c | None => O end in
       Obj.set val (seen + 1)%nat counts)
    rows [].

(** One round of [columns.forEach]. *)
Definition collectColumn (rows : list row)
    (acc : Obj.t (Obj.t nat) * Obj.t Stats) (col : string)
  : Obj.t (Obj.t nat) * Obj.t Stats :=
  let '(categoricalStats, numericStats) := acc in
  let numericStats :=
    if existsb (parsesAsNumber col) rows then
      let values := numericValues rows col in
      if (0 <? List.length values)%nat
      then Obj.set col (statsOf values) numericStats
      else numericStats
    else numericStats in
  let categoricalStats :=
    if (List.length (uniqueValues rows col) <=? 10)%nat
    then Obj.set col (countValues rows col) categoricalStats
    else categoricalStats in
  (categoricalStats, numericStats).

Definition numericLine (entry : string * Stats) : string :=
  let '(col, stats) := entry in
  col ++ ": Min=" ++ toFixed 2 (min stats)
      ++ ", Max=" ++ toFixed 2 (max stats)
      ++ ", Avg=" ++ toFixed 2 (avg stats).

Definition distributionEntry (total : nat) (entry : string * nat) : string :=
  let '(val, count) := entry in
  val ++ ": " ++ decimal (N.of_nat count) ++ " ("
      ++ toFixed 1 (mul (div (ofNat count) (ofNat total)) (Fin 100)) ++ "%)".

Definition distributionLine (total : nat) (entry : string * Obj.t nat)
  : list string :=
  let '(col, counts) := entry in
  let topEntries :=
    firstn 3 (sort (fun a b => sub (ofNat (snd b)) (ofNat (snd a))) counts) in
  match topEntries with
  | [] => []
  | _ => [col ++ " distribution: "
              ++ join ", " (map (distributionEntry total) topEntries)]
  end.

(** The [summary] array of a triggered summary over non-empty rows. *)
Definition summaryLines (firstRow : row) (rows : list row) : list string :=
  let columns := Obj.keys firstRow in
  let '(categoricalStats, numericStats) :=
    fold_left (collectColumn rows) columns ([], []) in
  let total := "Total rows: " ++ decimal (N.of_nat (List.length rows)) in
  (total :: map numericLine numericStats
     ++ flat_map (distributionLine (List.length rows)) categoricalStats)%list.

Definition generateSummary (rows : list row) (forceSummarize : bool) : string :=
  match rows with
  | [] => "No data available for summary."
  | firstRow :: _ =>
      if forceSummarize || (10 <? List.length rows)%nat
      then join "<br>" (summaryLines firstRow rows)
      else ""
  end.

(** *** The interpreter *)

Definition processExcelQuery (excelData : option ExcelData) (query : string)
  : QueryResult :=
  match excelData with
  | None => {| rows := []; summary := "No data available" |}
  | Some excelData =>
      if String.eqb query "" then
        {| rows := []; summary := "No data available" |}
      else
        let queryLower := toLowerCase query in
        let matchingRows := defaultSearch (data excelData) queryLower in
        let matchingRows :=
          if isFilterQuery queryLower
          then filterRows (data excelData) queryLower matchingRows
          else matchingRows in
        let matchingRows :=
          if isSortQuery queryLower
          then sortRows (data excelData) queryLower matchingRows
          else matchingRows in
        {| rows := matchingRows;
           summary := generateSummary matchingRows
                        (isSummarizeQuery queryLower) |}
  end.

(* ================================================================= *)
(** ** Tables used in the scenarios *)

Definition workbook (d : list row) : option ExcelData :=
  Some {| sheets := ["Sheet1"]; data := d; fileName := "book.xlsx" |}.

(** One column [status] holding OK, OK, FAIL. *)
Definition statusRows : list row :=
  [ [("status", VStr "OK")];
    [("status", VStr "OK")];
    [("status", VStr "FAIL")] ].

(** One column [date] holding the texts 2023, 2021, 2022. *)
Definition dateRows : list row :=
  [ [("date", VStr "2023")];
    [("date", VStr "2021")];
    [("date", VStr "2022")] ].

(** Eleven rows [id] = 1..11 with a [status] cell. *)
Definition elevenRows : list row :=
  map (fun i => [("id", VNum (ofZ i)); ("status", VStr "OK")])
      [1; 2; 3; 4; 5; 6; 7; 8; 9; 10; 11]%Z.


(** A table without columns: every row is the empty object. *)
Definition zeroColumns (excelData : ExcelData) : Prop :=
  forall r, In r (data excelData) -> Obj.keys r = [].

(** The test applied to a row once a vocabulary value is resolved. *)
Definition valueFilter (targetColumn targetValue : string) : row -> bool :=
  if String.eqb targetColumn ""
  then anyColumnEquals targetValue
  else columnEquals targetColumn targetValue.

(** Case-sensitive lexicographic order of texts, code unit by code
    unit: a proper prefix comes first, otherwise the first differing
    code unit decides. *)
Inductive lex_lt : string -> string -> Prop :=
| lex_lt_prefix (c : ascii) (t : string) :
    lex_lt "" (String c t)
| lex_lt_head (a b : ascii) (s t : string) :
    (N_of_ascii a < N_of_ascii b)%N -> lex_lt (String a s) (String b t)
| lex_lt_tail (a : ascii) (s t : string) :
    lex_lt s t -> lex_lt (String a s) (String a t).

(* ================================================================= *)
(** ** Rendering of a result ([formatResponse]) *)

(** The double quote and the line feed of the template literals. *)
Definition dq : string := String "034"%char "".
Definition nl : string := String "010"%char "".

Definition noMatchResponse : string :=
  "<p>No matching data found in the Excel sheet.</p>".

(** The block put in front of the table when the summary is not the
    empty text. *)
Definition summaryBox (summary : string) : string :=
  "<div class=" ++ dq ++
    "mb-4 p-3 bg-blue-50 border border-blue-200 rounded-md dark:bg-blue-900 dark:border-blue-700" ++
    dq ++ ">" ++ nl ++ "        <h3 class=" ++ dq ++
    "font-medium mb-2 text-blue-700 dark:text-blue-300" ++ dq ++
    ">Summary</h3>" ++ nl ++ "        <div class=" ++ dq ++
    "text-sm text-blue-600 dark:text-blue-200" ++ dq ++ ">"
    ++ summary ++
    "</div>" ++ nl ++ "      </div>".

Definition headerCell (col : string) : string :=
  "<th class=" ++ dq ++
    "px-4 py-2 bg-gray-100 dark:bg-gray-600 sticky top-0" ++ dq ++ ">"
    ++ col ++ "</th>".

(** [${row[col]}] prints the cell as [String] does. *)
Definition dataCell (r : row) (col : string) : string :=
  "<td class=" ++ dq ++
    "px-4 py-2 border border-gray-200 dark:border-gray-600" ++ dq ++ ">"
    ++ String_ (cell r col) ++ "</td>".

Definition tableRow (columns : list string) (r : row) : string :=
  "<tr>" ++ join "" (map (dataCell r) columns) ++ "</tr>".

Definition resultTable (count : nat) (tableHeaders tableRows : string)
  : string :=
  nl ++ "      <p>Found " ++ decimal (N.of_nat count) ++
    " matching row(s):</p>" ++ nl ++ "      <div class=" ++ dq ++
    "overflow-x-auto max-h-96" ++ dq ++ ">" ++ nl ++
    "        <table class=" ++ dq ++
    "min-w-full bg-white border border-gray-200 dark:bg-gray-700 dark:border-gray-600" ++
    dq ++ ">" ++ nl ++ "          <thead>" ++ nl ++ "            <tr>"
    ++ tableHeaders ++
    "</tr>" ++ nl ++ "          </thead>" ++ nl ++ "          <tbody>"
    ++ tableRows ++
    "</tbody>" ++ nl ++ "        </table>" ++ nl ++ "      </div>" ++ nl ++
    "    ".

Definition formatResponse (result : QueryResult) : string :=
  match rows result with
  | [] => noMatchResponse
  | first :: _ =>
      let response := "" in
      let response :=
        if String.eqb (summary result) "" then response
        else response ++ summaryBox (summary result) in
      let columns := Obj.keys first in
      let tableHeaders := join "" (map headerCell columns) in
      let tableRows := join "" (map (tableRow columns) (rows result)) in
      response
        ++ resultTable (List.length (rows result)) tableHeaders tableRows
  end.

(* ================================================================= *)
(** ** The earlier search ([searchExcelData]) *)

(** [null] is [None]. *)
Definition searchExcelData (excelData : option ExcelData) (query : string)
  : option (list row) :=
  match excelData with
  | None => None
  | Some excelData =>
      if String.eqb query "" then None
      else
        let searchTerm := toLowerCase query in
        Some (filter
                (fun r =>
                   existsb
                     (fun v => includes (toLowerCase (String_ v)) searchTerm)
                     (Obj.values r))
                (data excelData))
  end.

(* ================================================================= *)
(** ** The sample sent for analysis ([prepareDataForAnalysis]) *)

Module Analysis.

Record Analyzable : Type := {
  columns : list string;
  totalRows : nat;
  sampleData : list row;
  summary : string
}.

Definition prepareDataForAnalysis (data : list row) : Analyzable :=
  let columns :=
    match data with
    | [] => []
    | first :: _ => Obj.keys first
    end in
  let sampleSize := 5%nat in
  let firstRows := firstn sampleSize data in
  let lastRows := skipn (List.length data - sampleSize) data in
  let totalRows := List.length data in
  {| columns := columns;
     totalRows := totalRows;
     sampleData := (firstRows ++ lastRows)%list;
     summary := "Dataset contains " ++ decimal (N.of_nat totalRows)
                  ++ " rows with columns: " ++ join ", " columns |}.

End Analysis.

(* ================================================================= *)
(** ** The state of the component and its handlers *)

(** A [File] is taken with what the reader and the spreadsheet
    decoder make of it: the sheet names in workbook order, each with
    its decoded rows.  The read completes right after the handler
    that starts it.  Scrolling, focus and console output are left
    out; [new Date()] is the argument [now]. *)
Module App.

Record File : Type := {
  name : string;
  workbook : list (string * list row)
}.

Module Message.
Record t : Type := {
  query : string;
  response : string;
  timestamp : Z
}.
End Message.

Record State : Type := {
  excelFiles : list File;
  selectedFile : string;
  excelData : option ExcelData;
  selectedSheet : string;
  query : string;
  loading : bool;
  chatHistory : list Message.t;
  isFileDrawerOpen : bool;
  isDarkMode : bool
}.

Definition initial : State :=
  {| excelFiles := []; selectedFile := ""; excelData := None;
     selectedSheet := ""; query := ""; loading := false;
     chatHistory := []; isFileDrawerOpen := false; isDarkMode := false |}.

Definition setExcelFiles (v : list File) (st : State) : State :=
  {| excelFiles := v; selectedFile := selectedFile st;
     excelData := excelData st; selectedSheet := selectedSheet st;
     query := query st; loading := loading st;
     chatHistory := chatHistory st;
     isFileDrawerOpen := isFileDrawerOpen st; isDarkMode := isDarkMode st |}.

Definition setSelectedFile (v : string) (st : State) : State :=
  {| excelFiles := excelFiles st; selectedFile := v;
     excelData := excelData st; selectedSheet := selectedSheet st;
     query := query st; loading := loading st;
     chatHistory := chatHistory st;
     isFileDrawerOpen := isFileDrawerOpen st; isDarkMode := isDarkMode st |}.

Definition setExcelData (v : option ExcelData) (st : State) : State :=
  {| excelFiles := excelFiles st; selectedFile := selectedFile st;
     excelData := v; selectedSheet := selectedSheet st;
     query := query st; loading := loading st;
     chatHistory := chatHistory st;
     isFileDrawerOpen := isFileDrawerOpen st; isDarkMode := isDarkMode st |}.

Definition setSelectedSheet (v : string) (st : State) : State :=
  {| excelFiles := excelFiles st; selectedFile := selectedFile st;
     excelData := excelData st; selectedSheet := v;
     query := query st; loading := loading st;
     chatHistory := chatHistory st;
     isFileDrawerOpen := isFileDrawerOpen st; isDarkMode := isDarkMode st |}.

Definition setQuery (v : string) (st : State) : State :=
  {| excelFiles := excelFiles st; selectedFile := selectedFile st;
     excelData := excelData st; selectedSheet := selectedSheet st;
     query := v; loading := loading st;
     chatHistory := chatHistory st;
     isFileDrawerOpen := isFileDrawerOpen st; isDarkMode := isDarkMode st |}.

Definition setLoading (v : bool) (st : State) : State :=
  {| excelFiles := excelFiles st; selectedFile := selectedFile st;
     excelData := excelData st; selectedSheet := selectedSheet st;
     query := query st; loading := v;
     chatHistory := chatHistory st;
     isFileDrawerOpen := isFileDrawerOpen st; isDarkMode := isDarkMode st |}.

Definition setChatHistory (v : list Message.t) (st : State) : State :=
  {| excelFiles := excelFiles st; selectedFile := selectedFile st;
     excelData := excelData st; selectedSheet := selectedSheet st;
     query := query st; loading := loading st;
     chatHistory := v;
     isFileDrawerOpen := isFileDrawerOpen st; isDarkMode := isDarkMode st |}.

Definition setIsFileDrawerOpen (v : bool) (st : State) : State :=
  {| excelFiles := excelFiles st; selectedFile := selectedFile st;
     excelData := excelData st; selectedSheet := selectedSheet st;
     query := query st; loading := loading st;
     chatHistory := chatHistory st;
     isFileDrawerOpen := v; isDarkMode := isDarkMode st |}.

Definition setIsDarkMode (v : bool) (st : State) : State :=
  {| excelFiles := excelFiles st; selectedFile := selectedFile st;
     excelData := excelData st; selectedSheet := selectedSheet st;
     query := query st; loading := loading st;
     chatHistory := chatHistory st;
     isFileDrawerOpen := isFileDrawerOpen st; isDarkMode := v |}.

Definition toggleDarkMode (st : State) : State :=
  setIsDarkMode (negb (isDarkMode st)) st.

(** What [reader.onload] does once the file is read. *)
Definition readExcelFile (file : File) (st : State) : State :=
  let sheets := map fst (workbook file) in
  match workbook file with
  | [] => st
  | (firstSheet, sheetData) :: _ =>
      setExcelData
        (Some {| sheets := sheets; data := sheetData;
                 fileName := name file |})
        (setSelectedSheet firstSheet st)
  end.

(** [e.target.files] is [None] when the input holds no file list. *)
Definition handleFileUpload (files : option (list File)) (st : State)
  : State :=
  match files with
  | None => st
  | Some files =>
      let st := setExcelFiles (excelFiles st ++ files) st in
      let st :=
        match files with
        | first :: _ => readExcelFile first (setSelectedFile (name first) st)
        | [] => st
        end in
      setIsFileDrawerOpen false st
  end.

(** [excelFiles.find((f) => f.name === wanted)] *)
Definition findFile (wanted : string) (files : list File) : option File :=
  find (fun f => String.eqb (name f) wanted) files.

Definition handleFileChange (fileName : string) (st : State) : State :=
  let st := setSelectedFile fileName st in
  let st :=
    match findFile fileName (excelFiles st) with
    | Some file => readExcelFile file st
    | None => st
    end in
  setIsFileDrawerOpen false st.

Definition removeFile (fileName : string) (st : State) : State :=
  let keep := fun f => negb (String.eqb (name f) fileName) in
  let st' := setExcelFiles (filter keep (excelFiles st)) st in
  if String.eqb (selectedFile st) fileName then
    let remainingFiles := filter keep (excelFiles st) in
    match remainingFiles with
    | first :: _ => readExcelFile first (setSelectedFile (name first) st')
    | [] => setExcelData None (setSelectedFile "" st')
    end
  else st'.

(** The submit handler.  Neither [processExcelQuery] nor
    [formatResponse] raises, so the [catch] branch is never taken. *)
Definition chatWithExcel (now : Z) (st : State) : State :=
  match excelData st with
  | None => st
  | Some _ =>
      if String.eqb (query st) "" then st
      else
        let currentQuery := query st in
        let st := setQuery "" (setLoading true st) in
        let result := processExcelQuery (excelData st) currentQuery in
        let formattedResponse := formatResponse result in
        let st :=
          setChatHistory
            (chatHistory st ++
               [ {| Message.query := currentQuery;
                    Message.response := formattedResponse;
                    Message.timestamp := now |} ])
            st in
        setLoading false st
  end.

Definition clearChatHistory (st : State) : State := setChatHistory [] st.

(** The selected name is empty or the name of a listed file. *)
Definition selectionListed (st : State) : Prop :=
  selectedFile st = "" \/ In (selectedFile st) (map name (excelFiles st)).

End App.

(* ================================================================= *)
(** ** Notions used to state the properties *)

(** The rows whose sort cell has the number form [k]. *)
Definition hasKey (sortColumn : string) (k : Q) (r : row) : bool :=
  match Number (cell r sortColumn) with
  | Fin q => Qeq_bool q k
  | _ => false
  end.

(** The texts of a column, row by row. *)
Definition columnTexts (rows : list row) (col : string) : list string :=
  map (fun r => String_ (cell r col)) rows.

(** A row whose sort cell has a number form that is a double as it
    stands. *)
Definition exactKey (sortColumn : string) (r : row) : bool :=
  negb (isNaN (Number (cell r sortColumn)))
  && exactDouble (Number (cell r sortColumn)).



(** The names every object inherits from [Object.prototype]. *)
Definition prototypeNames : list string :=
  [ "constructor"; "__proto__"; "hasOwnProperty"; "isPrototypeOf";
    "propertyIsEnumerable"; "toLocaleString"; "toString"; "valueOf";
    "__defineGetter__"; "__defineSetter__"; "__lookupGetter__";
    "__lookupSetter__" ].

Definition ordinaryName (k : string) : bool :=
  negb (existsb (String.eqb k) prototypeNames).

(** A cell whose text [String_] gives exactly as the run time does:
    anything but a finite number that is not an integer below 2^53 in
    magnitude. *)
Definition plainCell (v : value) : bool :=
  match v with
  | VNum (Fin q) =>
      let r := Qred q in
      Pos.eqb (Qden r) 1 && (Z.abs (Qnum r) <? 2 ^ 53)%Z
  | _ => true
  end.

(** A column whose name and whose cell texts are no inherited names
    and whose cells are plain. *)
Definition ordinaryColumn (rows : list row) (col : string) : bool :=
  ordinaryName col
  && forallb
       (fun r => plainCell (cell r col)
                 && ordinaryName (String_ (cell r col)))
       rows.

(** One entry of a distribution line around its percentage. *)
Definition entryText (entry : string * nat) (percentage : string) : string :=
  fst entry ++ ": " ++ decimal (N.of_nat (snd entry))
            ++ " (" ++ percentage ++ "%)".

(** A text of unaccented Latin letters. *)
Definition isLetter (c : ascii) : bool :=
  let n := N_of_ascii c in
  ((65 <=? n) && (n <=? 90) || (97 <=? n) && (n <=? 122))%N.

Fixpoint lettersOnly (s : string) : bool :=
  match s with
  | EmptyString => true
  | String c s' => isLetter c && lettersOnly s'
  end.

(* ================================================================= *)
(** ** Facts about the run time *)

Section StringFacts.

Lemma startsWith_app (t r : string) : startsWith (t ++ r) t = true.
Proof.
  induction t as [|c t IH]; simpl.
  - reflexivity.
  - now rewrite Ascii.eqb_refl, IH.
Qed.

Lemma startsWith_inv (s t : string) :
  startsWith s t = true -> exists r, s = t ++ r.
Proof.
  revert s; induction t as [|b t IH]; intros s H.
  - now exists s.
  - destruct s as [|a s]; simpl in H; [discriminate|].
    apply andb_true_iff in H as [Hab Hst].
    apply Ascii.eqb_eq in Hab; subst b.
    destruct (IH _ Hst) as [r ->].
    now exists r.
Qed.

Lemma startsWith_iff (s t : string) :
  startsWith s t = true <-> exists r, s = t ++ r.
Proof.
  split.
  - apply startsWith_inv.
  - intros [r ->]. apply startsWith_app.
Qed.

Lemma string_app_assoc (a b c : string) : (a ++ b) ++ c = a ++ b ++ c.
Proof.
  induction a as [|x a IH]; simpl; [reflexivity | now rewrite IH].
Qed.

(** [includes] is the occurrence relation: some text before, the
    needle, some text after. *)
Lemma includes_iff (s t : string) :
  includes s t = true <-> exists pre post, s = pre ++ t ++ post.
Proof.
  split.
  - induction s as [|c s IH]; simpl; intros H.
    + apply orb_true_iff in H as [H|H]; [|discriminate].
      apply startsWith_inv in H as [r Hr]. now exists "", r.
    + apply orb_true_iff in H as [H|H].
      * apply startsWith_inv in H as [r Hr]. now exists "", r.
      * destruct (IH H) as (pre & post & ->).
        now exists (String c pre), post.
  - intros (pre & post & ->).
    induction pre as [|c pre IH].
    + simpl append at 1.
      destruct (t ++ post) eqn:E; simpl.
      * rewrite <- E, startsWith_app. reflexivity.
      * rewrite <- E, startsWith_app. reflexivity.
    + simpl. rewrite IH. apply orb_true_r.
Qed.

Lemma includes_trans (s t u : string) :
  includes s t = true -> includes t u = true -> includes s u = true.
Proof.
  rewrite !includes_iff.
  intros (p1 & q1 & ->) (p2 & q2 & ->).
  exists (p1 ++ p2), (q2 ++ q1).
  now rewrite !string_app_assoc.
Qed.

(** The head of a joined array is its first element. *)
Lemma startsWith_join (sep p : string) (rest : list string) :
  startsWith (join sep (p :: rest)) p = true.
Proof.
  destruct rest as [|q rest]; cbn [join].
  - rewrite <- (startsWith_app p ""). f_equal.
    induction p as [|c p IH]; simpl; [reflexivity | now rewrite <- IH].
  - apply startsWith_app.
Qed.

(** Every element of a joined array occurs in the result. *)
Lemma includes_join (sep line : string) (parts : list string) :
  In line parts -> includes (join sep parts) line = true.
Proof.
  induction parts as [|p rest IH]; intros Hin; [destruct Hin|].
  destruct rest as [|q rest].
  - destruct Hin as [->|[]]. cbn [join].
    apply includes_iff. exists "", "". simpl.
    induction line as [|c l IHl]; simpl; [reflexivity | now rewrite <- IHl].
  - change (join sep (p :: q :: rest))
      with (p ++ sep ++ join sep (q :: rest)).
    destruct Hin as [->|Hin].
    + apply includes_iff. now exists "", (sep ++ join sep (q :: rest)).
    + apply includes_iff.
      apply IH in Hin. apply includes_iff in Hin as (pre & post & E).
      exists (p ++ sep ++ pre), post.
      rewrite E, !string_app_assoc. reflexivity.
Qed.

End StringFacts.

Section SortFacts.

Context {A : Type} (cmp : A -> A -> number).

Lemma sort_insert_perm (x : A) (l : list A) :
  Permutation (sort_insert cmp x l) (x :: l).
Proof.
  induction l as [|y l IH]; simpl.
  - apply Permutation_refl.
  - destruct (sign (cmp x y)); try apply Permutation_refl.
    apply Permutation_trans with (y :: x :: l).
    + now apply perm_skip.
    + apply perm_swap.
Qed.

(** Sorting rearranges and neither adds nor drops an element. *)
Lemma sort_perm (l : list A) : Permutation (sort cmp l) l.
Proof.
  induction l as [|x l IH]; simpl.
  - apply perm_nil.
  - apply Permutation_trans with (x :: sort cmp l).
    + apply sort_insert_perm.
    + now apply perm_skip.
Qed.

Lemma sort_In (l : list A) (x : A) : In x (sort cmp l) <-> In x l.
Proof.
  split; apply Permutation_in;
    [apply sort_perm | apply Permutation_sym, sort_perm].
Qed.

End SortFacts.

(** The sort pass rearranges the rows it is given. *)
Lemma sortRows_perm (data : list row) (queryLower : string) (l : list row) :
  Permutation (sortRows data queryLower l) l.
Proof.
  unfold sortRows.
  destruct (String.eqb _ ""); [apply Permutation_refl | apply sort_perm].
Qed.

(** The interpreter on a present table and a non-empty query, pass by
    pass. *)
Lemma processExcelQuery_rows (excelData : ExcelData) (query : string) :
  query <> "" ->
  let queryLower := toLowerCase query in
  let searched := defaultSearch (data excelData) queryLower in
  let filtered :=
    if isFilterQuery queryLower
    then filterRows (data excelData) queryLower searched else searched in
  let sorted :=
    if isSortQuery queryLower
    then sortRows (data excelData) queryLower filtered else filtered in
  processExcelQuery (Some excelData) query =
    {| rows := sorted;
       summary := generateSummary sorted (isSummarizeQuery queryLower) |}.
Proof.
  intros Hq. unfold processExcelQuery.
  apply String.eqb_neq in Hq. rewrite Hq. reflexivity.
Qed.

(* ================================================================= *)
(** ** Plain search *)

Lemma matchesSearch_iff (queryLower : string) (r : row) :
  matchesSearch queryLower r = true <->
  exists v pre post,
    In v (Obj.values r) /\
    toLowerCase (String_ v) = pre ++ queryLower ++ post.
Proof.
  unfold matchesSearch. rewrite existsb_exists. split.
  - intros (v & Hin & H). apply includes_iff in H as (pre & post & E).
    now exists v, pre, post.
  - intros (v & pre & post & Hin & E). exists v. split; [assumption|].
    apply includes_iff. now exists pre, post.
Qed.

(** C5.  For a present table and a non-empty query with none of the
    filter, sort or summarize keywords, the returned rows are the
    rows of the table, in table order, in which the text of some
    cell, lower-cased, contains the lower-cased query. *)
Theorem plain_search_rows (excelData : ExcelData) (query : string) :
  query <> "" ->
  isFilterQuery (toLowerCase query) = false ->
  isSortQuery (toLowerCase query) = false ->
  isSummarizeQuery (toLowerCase query) = false ->
  rows (processExcelQuery (Some excelData) query)
    = filter (matchesSearch (toLowerCase query)) (data excelData)
  /\ (forall r,
        matchesSearch (toLowerCase query) r = true <->
        exists v pre post,
          In v (Obj.values r) /\
          toLowerCase (String_ v) = pre ++ toLowerCase query ++ post).
Proof.
  intros Hq Hf Hs _. split.
  - rewrite (processExcelQuery_rows _ _ Hq). cbn zeta.
    rewrite Hf, Hs. reflexivity.
  - intros r. apply matchesSearch_iff.
Qed.

Lemma plain_search_rows_witness :
  rows (processExcelQuery (workbook statusRows) "OK")
    = filter (matchesSearch "ok") statusRows.
Proof.
  apply (plain_search_rows
           {| sheets := ["Sheet1"]; data := statusRows;
              fileName := "book.xlsx" |} "OK");
    [discriminate | reflexivity | reflexivity | reflexivity].
Defined.

(* ================================================================= *)
(** ** No data *)

Lemma defaultSearch_zero_columns (d : list row) (queryLower : string) :
  (forall r, In r d -> Obj.keys r = []) -> defaultSearch d queryLower = [].
Proof.
  intros H. unfold defaultSearch.
  induction d as [|r d IH]; simpl; [reflexivity|].
  assert (Hr : r = []).
  { specialize (H r (or_introl eq_refl)). destruct r; [reflexivity|discriminate]. }
  subst r. simpl. apply IH. intros r Hr. apply H. now right.
Qed.

Lemma anyColumnEquals_zero_columns (d : list row) (targetValue : string) :
  (forall r, In r d -> Obj.keys r = []) ->
  filter (anyColumnEquals targetValue) d = [].
Proof.
  intros H. induction d as [|r d IH]; simpl; [reflexivity|].
  assert (Hr : r = []).
  { specialize (H r (or_introl eq_refl)). destruct r; [reflexivity|discriminate]. }
  subst r. simpl. apply IH. intros r Hr. apply H. now right.
Qed.

Lemma columns_of_zero_columns (d : list row) :
  (forall r, In r d -> Obj.keys r = []) -> columns_of d = [].
Proof.
  destruct d as [|r d]; intros H; [reflexivity|].
  simpl. apply H. now left.
Qed.

(** C9.  Whatever the query, interpreting it against an absent table
    or a table without columns yields a result (the interpreter is a
    total function: no path of it raises) whose rows are empty and
    whose summary is one of the two "No data available" texts. *)
Theorem no_data_result (excelData : option ExcelData) (query : string) :
  match excelData with
  | None => True
  | Some present => zeroColumns present
  end ->
  rows (processExcelQuery excelData query) = []
  /\ (summary (processExcelQuery excelData query) = "No data available"
      \/ summary (processExcelQuery excelData query)
           = "No data available for summary.")
  /\ startsWith (summary (processExcelQuery excelData query))
                "No data available" = true.
Proof.
  destruct excelData as [present|]; intros H.
  2: { simpl. auto. }
  unfold processExcelQuery.
  destruct (String.eqb query ""); [simpl; auto|].
  set (q := toLowerCase query).
  assert (Hrows :
    (if isSortQuery q
     then sortRows (data present) q
            (if isFilterQuery q
             then filterRows (data present) q (defaultSearch (data present) q)
             else defaultSearch (data present) q)
     else if isFilterQuery q
          then filterRows (data present) q (defaultSearch (data present) q)
          else defaultSearch (data present) q) = []).
  { assert (Hf : filterRows (data present) q (defaultSearch (data present) q)
                 = []).
    { unfold filterRows. rewrite (columns_of_zero_columns _ H). simpl.
      destruct (valueMatches q).
      - now apply defaultSearch_zero_columns.
      - now apply anyColumnEquals_zero_columns. }
    assert (Hs : forall l, sortRows (data present) q l = l).
    { intros l. unfold sortRows.
      now rewrite (columns_of_zero_columns _ H). }
    rewrite Hs, Hf, (defaultSearch_zero_columns _ q H).
    now destruct (isSortQuery q), (isFilterQuery q). }
  cbn [rows summary]. rewrite Hrows. simpl. auto.
Qed.

Lemma no_data_result_witness :
  rows (processExcelQuery (workbook []) "anything") = []
  /\ rows (processExcelQuery None "anything") = []
  /\ rows (processExcelQuery (workbook [ []; [] ]) "show ok") = [].
Proof.
  split; [|split].
  - apply (no_data_result (workbook []) "anything").
    intros r [].
  - apply (no_data_result None "anything"). exact I.
  - apply (no_data_result (workbook [ []; [] ]) "show ok").
    intros r [<-|[<-|[]]]; reflexivity.
Defined.

(* ================================================================= *)
(** ** Summary text when no summary is built *)

(** C7, as the source has it.  When the rows are empty the summary is
    the text "No data available for summary."; when they are not and
    the trigger does not hold (no summarize keyword, at most 10 rows)
    it is the empty text. *)
Theorem summary_not_built (rows : list row) (forceSummarize : bool) :
  rows = [] \/ (forceSummarize = false /\ List.length rows <= 10)%nat ->
  generateSummary rows forceSummarize
    = match rows with
      | [] => "No data available for summary."
      | _ :: _ => ""
      end.
Proof.
  intros [->|[-> Hlen]]; [reflexivity|].
  destruct rows as [|r rows]; [reflexivity|].
  unfold generateSummary.
  replace (10 <? List.length (r :: rows))%nat with false; [reflexivity|].
  symmetry. apply Nat.ltb_ge. exact Hlen.
Qed.

Lemma summary_not_built_witness :
  generateSummary statusRows false = ""
  /\ generateSummary [] false = "No data available for summary.".
Proof.
  split.
  - apply (summary_not_built statusRows false).
    right. split; [reflexivity | vm_compute; lia].
  - apply (summary_not_built [] false). now left.
Defined.

(** C7 as stated fails on empty rows: the summary is not empty. *)
Lemma summary_of_no_rows_not_empty :
  generateSummary [] false <> "" /\ generateSummary [] true <> "".
Proof. split; discriminate. Qed.

(* ================================================================= *)
(** ** Filtering by a vocabulary value *)

Lemma isFilterQuery_nonempty (query : string) :
  isFilterQuery (toLowerCase query) = true -> query <> "".
Proof. intros H ->. discriminate H. Qed.

Lemma filterRows_value (d : list row) (queryLower targetValue : string)
    (others : list string) (matchingRows : list row) :
  valueMatches queryLower = targetValue :: others ->
  filterRows d queryLower matchingRows
    = filter (valueFilter (findColumn (columns_of d) queryLower) targetValue) d.
Proof.
  intros Hv. unfold filterRows, valueFilter. rewrite Hv.
  now destruct (String.eqb _ "").
Qed.

Lemma anyColumnEquals_iff (targetValue : string) (r : row) :
  anyColumnEquals targetValue r = true <->
  exists col val, In (col, val) r /\ toLowerCase (String_ val) = targetValue.
Proof.
  unfold anyColumnEquals. rewrite existsb_exists. split.
  - intros ([col val] & Hin & H). apply String.eqb_eq in H.
    now exists col, val.
  - intros (col & val & Hin & H). exists (col, val).
    split; [assumption | now apply String.eqb_eq].
Qed.

Lemma valueFilter_iff (targetColumn targetValue : string) (r : row) :
  valueFilter targetColumn targetValue r = true <->
  (targetColumn = "" /\
   exists col val, In (col, val) r /\ toLowerCase (String_ val) = targetValue)
  \/ (targetColumn <> "" /\
      toLowerCase (String_ (cell r targetColumn)) = targetValue).
Proof.
  unfold valueFilter.
  destruct (String.eqb_spec targetColumn "") as [E|E].
  - rewrite anyColumnEquals_iff. split; [now left|].
    intros [[_ H]|[H _]]; [assumption | contradiction].
  - unfold columnEquals. rewrite String.eqb_eq. split; [now right|].
    intros [[H _]|[_ H]]; [contradiction | assumption].
Qed.

(** The rows returned when the query has filter intent and a
    vocabulary value is resolved. *)
Lemma value_filter_result (excelData : ExcelData) (query targetValue : string)
    (others : list string) :
  isFilterQuery (toLowerCase query) = true ->
  valueMatches (toLowerCase query) = targetValue :: others ->
  let queryLower := toLowerCase query in
  let kept :=
    filter (valueFilter (findColumn (columns_of (data excelData)) queryLower)
                        targetValue)
           (data excelData) in
  rows (processExcelQuery (Some excelData) query)
    = if isSortQuery queryLower
      then sortRows (data excelData) queryLower kept
      else kept.
Proof.
  intros Hf Hv queryLower kept. subst queryLower kept.
  rewrite (processExcelQuery_rows _ _ (isFilterQuery_nonempty _ Hf)).
  cbn zeta. rewrite Hf.
  rewrite (filterRows_value _ _ _ _ _ Hv). reflexivity.
Qed.

(** Once a vocabulary value is resolved the returned rows are, up to
    the order the sort pass gives them, the rows of the table that
    pass [valueFilter]. *)
Lemma value_filter_perm (excelData : ExcelData) (query targetValue : string)
    (others : list string) :
  isFilterQuery (toLowerCase query) = true ->
  valueMatches (toLowerCase query) = targetValue :: others ->
  Permutation
    (rows (processExcelQuery (Some excelData) query))
    (filter (valueFilter
               (findColumn (columns_of (data excelData)) (toLowerCase query))
               targetValue)
            (data excelData)).
Proof.
  intros Hf Hv.
  rewrite (value_filter_result excelData query targetValue others Hf Hv).
  cbn zeta. destruct (isSortQuery (toLowerCase query));
    [apply sortRows_perm | apply Permutation_refl].
Qed.

(** C1, as the source has it.  With filter intent and a resolved
    vocabulary value, the returned rows are the rows of the whole
    table (not of the plain-search result) whose target column, or
    some column when none is resolved, has lower-cased text equal to
    the resolved value; they come in table order, rearranged by the
    sort pass when the query also has sort intent. *)
Theorem filter_by_value_rows (excelData : ExcelData)
    (query targetValue : string) (others : list string) :
  isFilterQuery (toLowerCase query) = true ->
  valueMatches (toLowerCase query) = targetValue :: others ->
  let queryLower := toLowerCase query in
  let targetColumn := findColumn (columns_of (data excelData)) queryLower in
  let result := rows (processExcelQuery (Some excelData) query) in
  Permutation result
    (filter (valueFilter targetColumn targetValue) (data excelData))
  /\ (isSortQuery queryLower = false ->
      result = filter (valueFilter targetColumn targetValue) (data excelData))
  /\ (forall r,
        In r result <->
        In r (data excelData) /\
        ((targetColumn = "" /\
          exists col val,
            In (col, val) r /\ toLowerCase (String_ val) = targetValue)
         \/ (targetColumn <> "" /\
             toLowerCase (String_ (cell r targetColumn)) = targetValue))).
Proof.
  intros Hf Hv queryLower targetColumn result.
  pose proof (value_filter_perm excelData query targetValue others Hf Hv)
    as P.
  fold queryLower targetColumn result in P.
  split; [exact P|]. split.
  - intros Hs. unfold result.
    rewrite (value_filter_result excelData query targetValue others Hf Hv).
    cbn zeta. fold queryLower in Hs |- *. now rewrite Hs.
  - intros r. rewrite <- valueFilter_iff, <- filter_In. split.
    + apply Permutation_in. exact P.
    + apply Permutation_in. apply Permutation_sym. exact P.
Qed.

Lemma filter_by_value_rows_witness :
  Permutation
    (rows (processExcelQuery (workbook statusRows) "show ok"))
    (filter (valueFilter "" "ok") statusRows).
Proof.
  destruct (filter_by_value_rows
              {| sheets := ["Sheet1"]; data := statusRows;
                 fileName := "book.xlsx" |} "show ok" "ok" [])
    as (H & _).
  - reflexivity.
  - reflexivity.
  - exact H.
Defined.

(** C1 as stated fails: with filter intent and the value "ok"
    resolved, rows are returned that the plain search rejects. *)
Lemma filtered_rows_outside_baseline :
  isFilterQuery (toLowerCase "show ok") = true
  /\ valueMatches (toLowerCase "show ok") = ["ok"]
  /\ In [("status", VStr "OK")]
        (rows (processExcelQuery (workbook statusRows) "show ok"))
  /\ matchesSearch (toLowerCase "show ok") [("status", VStr "OK")] = false
  /\ ~ In [("status", VStr "OK")]
          (defaultSearch statusRows (toLowerCase "show ok")).
Proof.
  repeat split; try reflexivity.
  - vm_compute. now left.
  - vm_compute. tauto.
Qed.

(* ================================================================= *)
(** ** The scenario "Show me all rows where status is OK" *)

Lemma findColumn_first_match (before after : list string) (col q : string) :
  Forall (fun c => includes q (toLowerCase c) = false) before ->
  includes q (toLowerCase col) = true ->
  findColumn (before ++ col :: after) q = col.
Proof.
  intros Hb Hc. induction Hb as [|c before Hc' _ IH]; simpl.
  - now rewrite Hc.
  - now rewrite Hc'.
Qed.

Lemma Permutation_filter_keep {A : Type} (f : A -> bool) (l l' : list A) :
  Permutation l l' -> Permutation (filter f l) (filter f l').
Proof.
  induction 1 as [|x l l' _ IH|x y l|l l' l'' _ IH1 _ IH2]; simpl.
  - apply perm_nil.
  - destruct (f x); [now apply perm_skip | exact IH].
  - destruct (f x), (f y); try apply Permutation_refl. apply perm_swap.
  - now apply Permutation_trans with (filter f l').
Qed.

Lemma filter_on_cells_length (f : value -> bool) (col : string) (l : list row) :
  List.length (filter (fun r => f (cell r col)) l)
    = List.length (filter f (map (fun r => cell r col) l)).
Proof.
  induction l as [|r l IH]; simpl; [reflexivity|].
  destruct (f (cell r col)); simpl; now rewrite IH.
Qed.

(** C4.  In a table whose first column named by the query is
    [status] and whose [status] cells are OK, OK and FAIL in some
    order, the query "Show me all rows where status is OK" resolves
    column [status] and value "ok" and returns, in table order,
    exactly the two rows whose [status] text lower-cases to "ok". *)
Theorem status_ok_scenario (excelData : ExcelData)
    (before after : list string) :
  let query := "Show me all rows where status is OK" in
  columns_of (data excelData) = (before ++ "status" :: after)%list ->
  Forall (fun c => includes (toLowerCase query) (toLowerCase c) = false)
         before ->
  Permutation (map (fun r => cell r "status") (data excelData))
              [VStr "OK"; VStr "OK"; VStr "FAIL"] ->
  let result := rows (processExcelQuery (Some excelData) query) in
  findColumn (columns_of (data excelData)) (toLowerCase query) = "status"
  /\ valueMatches (toLowerCase query) = ["ok"]
  /\ result = filter (columnEquals "status" "ok") (data excelData)
  /\ List.length result = 2%nat
  /\ (forall r,
        In r result <->
        In r (data excelData) /\
        toLowerCase (String_ (cell r "status")) = "ok").
Proof.
  intros query Hcols Hbefore Hcells result.
  assert (Hcol : findColumn (columns_of (data excelData)) (toLowerCase query)
                 = "status").
  { rewrite Hcols. now apply findColumn_first_match. }
  assert (Hres : result = filter (columnEquals "status" "ok") (data excelData)).
  { unfold result.
    rewrite (value_filter_result excelData query "ok" []);
      [|reflexivity|reflexivity].
    cbn zeta. rewrite Hcol.
    change (isSortQuery (toLowerCase query)) with false.
    reflexivity. }
  split; [exact Hcol|]. split; [reflexivity|]. split; [exact Hres|]. split.
  - rewrite Hres. unfold columnEquals.
    rewrite (filter_on_cells_length
               (fun v => String.eqb (toLowerCase (String_ v)) "ok")).
    rewrite (Permutation_length
               (Permutation_filter_keep _ _ _ Hcells)).
    reflexivity.
  - intros r. rewrite Hres, filter_In. unfold columnEquals.
    now rewrite String.eqb_eq.
Qed.

Lemma status_ok_scenario_witness :
  List.length
    (rows (processExcelQuery (workbook statusRows)
             "Show me all rows where status is OK")) = 2%nat.
Proof.
  destruct (status_ok_scenario
              {| sheets := ["Sheet1"]; data := statusRows;
                 fileName := "book.xlsx" |} [] [])
    as (_ & _ & _ & H & _).
  - reflexivity.
  - constructor.
  - apply Permutation_refl.
  - exact H.
Defined.

(* ================================================================= *)
(** ** "not ok" is shadowed by "ok" *)

(** C10.  When a query with filter intent contains "not ok", the
    resolved value is "ok": every returned row passes the equality
    test against "ok", so a row whose tested cell reads "not ok" is
    not returned. *)
Theorem not_ok_resolves_to_ok (excelData : ExcelData) (query : string) :
  isFilterQuery (toLowerCase query) = true ->
  includes (toLowerCase query) "not ok" = true ->
  let queryLower := toLowerCase query in
  let targetColumn := findColumn (columns_of (data excelData)) queryLower in
  let result := rows (processExcelQuery (Some excelData) query) in
  (exists others, valueMatches queryLower = "ok" :: others)
  /\ hd_error (valueMatches queryLower) <> Some "not ok"
  /\ (forall r, In r result -> valueFilter targetColumn "ok" r = true)
  /\ (forall r,
        targetColumn <> "" ->
        toLowerCase (String_ (cell r targetColumn)) = "not ok" ->
        ~ In r result)
  /\ (forall r,
        targetColumn = "" ->
        (forall col val,
           In (col, val) r -> toLowerCase (String_ val) = "not ok") ->
        ~ In r result).
Proof.
  intros Hf Hnot queryLower targetColumn result.
  assert (Hok : includes queryLower "ok" = true).
  { apply (includes_trans _ "not ok"); [exact Hnot | reflexivity]. }
  assert (Hv : exists others, valueMatches queryLower = "ok" :: others).
  { unfold valueMatches, commonValues. cbn [filter]. rewrite Hok.
    eexists. reflexivity. }
  destruct Hv as [others Hv].
  assert (Hin : forall r,
            In r result ->
            (targetColumn = "" /\
             exists col val,
               In (col, val) r /\ toLowerCase (String_ val) = "ok")
            \/ (targetColumn <> "" /\
                toLowerCase (String_ (cell r targetColumn)) = "ok")).
  { intros r Hr. apply valueFilter_iff.
    apply (Permutation_in _ (value_filter_perm excelData query "ok" others
                               Hf Hv)) in Hr.
    apply filter_In in Hr. apply Hr. }
  split; [now exists others|]. split.
  { fold queryLower. rewrite Hv. simpl. intros E. discriminate E. }
  split; [|split].
  - intros r Hr. apply valueFilter_iff. now apply Hin.
  - intros r Hcol Hcell Hr. apply Hin in Hr as [[E _]|[_ E]].
    + contradiction.
    + rewrite Hcell in E. discriminate E.
  - intros r Hcol Hcells Hr.
    apply Hin in Hr as [[_ (col & val & Hc & E)]|[E _]].
    + rewrite (Hcells _ _ Hc) in E. discriminate E.
    + contradiction.
Qed.

Lemma not_ok_resolves_to_ok_witness :
  ~ In [("status", VStr "Not OK")]
       (rows (processExcelQuery
                (workbook [ [("status", VStr "Not OK")];
                            [("status", VStr "OK")] ])
                "show status not ok")).
Proof.
  pose proof
    (not_ok_resolves_to_ok
       {| sheets := ["Sheet1"];
          data := [ [("status", VStr "Not OK")];
                    [("status", VStr "OK")] ];
          fileName := "book.xlsx" |} "show status not ok"
       eq_refl eq_refl) as (_ & _ & _ & H & _).
  apply H.
  - discriminate.
  - reflexivity.
Defined.

(* ================================================================= *)
(** ** The suggested queries "Sort by date descending" and
       "Summarize the data" *)

Lemma filter_none {A : Type} (f : A -> bool) (l : list A) :
  (forall x, In x l -> f x = false) -> filter f l = [].
Proof.
  induction l as [|x l IH]; intros H; simpl; [reflexivity|].
  rewrite (H x (or_introl eq_refl)). apply IH.
  intros y Hy. apply H. now right.
Qed.

(** A query without filter keyword whose text occurs in no cell
    leaves the later passes without rows. *)
Lemma unmatched_query_result (excelData : ExcelData) (query : string) :
  query <> "" ->
  isFilterQuery (toLowerCase query) = false ->
  (forall r, In r (data excelData) ->
             matchesSearch (toLowerCase query) r = false) ->
  processExcelQuery (Some excelData) query
    = {| rows := []; summary := "No data available for summary." |}.
Proof.
  intros Hq Hf Hnone.
  rewrite (processExcelQuery_rows _ _ Hq). cbn zeta. rewrite Hf.
  unfold defaultSearch. rewrite (filter_none _ _ Hnone).
  assert (Hs : sortRows (data excelData) (toLowerCase query) [] = []).
  { unfold sortRows. now destruct (String.eqb _ ""). }
  destruct (isSortQuery (toLowerCase query)); [rewrite Hs|]; reflexivity.
Qed.

(** The sort pass of "Sort by date descending", given three rows
    dated 2023, 2021, 2022, orders them 2023, 2022, 2021. *)
Lemma sort_pass_orders_dates (d : list row) (r1 r2 r3 : row) :
  findColumn (columns_of d) (toLowerCase "Sort by date descending") = "date" ->
  cell r1 "date" = VStr "2023" ->
  cell r2 "date" = VStr "2021" ->
  cell r3 "date" = VStr "2022" ->
  sortRows d (toLowerCase "Sort by date descending") [r1; r2; r3]
    = [r1; r3; r2].
Proof.
  intros Hcol H1 H2 H3. unfold sortRows. rewrite Hcol.
  change (String.eqb "date" "") with false.
  change (isDescending (toLowerCase "Sort by date descending")) with true.
  unfold sort. cbn [fold_right sort_insert].
  assert (E23 : sign (sortCompare true "date" r2 r3) = Gt).
  { unfold sortCompare. rewrite H2, H3. reflexivity. }
  assert (E13 : sign (sortCompare true "date" r1 r3) = Lt).
  { unfold sortCompare. rewrite H1, H3. reflexivity. }
  rewrite E23. cbn [sort_insert]. rewrite E13. reflexivity.
Qed.

(** C3 at its own input.  The query "Sort by date descending" has no
    filter keyword, so the plain search runs first with the whole
    query as the search text.  On a table of three rows dated 2023,
    2021, 2022 in which no cell contains that text, the sort pass
    receives no rows and the returned rows are empty, although the
    sort pass would order the three rows 2023, 2022, 2021. *)
Theorem sort_by_date_returns_no_rows (excelData : ExcelData)
    (r1 r2 r3 : row) :
  let query := "Sort by date descending" in
  data excelData = [r1; r2; r3] ->
  cell r1 "date" = VStr "2023" ->
  cell r2 "date" = VStr "2021" ->
  cell r3 "date" = VStr "2022" ->
  findColumn (columns_of (data excelData)) (toLowerCase query) = "date" ->
  (forall r, In r (data excelData) ->
             matchesSearch (toLowerCase query) r = false) ->
  rows (processExcelQuery (Some excelData) query) = []
  /\ rows (processExcelQuery (Some excelData) query) <> [r1; r3; r2]
  /\ sortRows (data excelData) (toLowerCase query) (data excelData)
       = [r1; r3; r2].
Proof.
  intros query Hdata H1 H2 H3 Hcol Hnone.
  assert (E : processExcelQuery (Some excelData) query
              = {| rows := []; summary := "No data available for summary." |}).
  { apply unmatched_query_result;
      [discriminate | reflexivity | exact Hnone]. }
  rewrite E. cbn [rows].
  split; [reflexivity|]. split; [discriminate|].
  rewrite Hdata in Hcol |- *. now apply sort_pass_orders_dates.
Qed.

Lemma sort_by_date_returns_no_rows_witness :
  rows (processExcelQuery (workbook dateRows) "Sort by date descending") = [].
Proof.
  apply (sort_by_date_returns_no_rows
           {| sheets := ["Sheet1"]; data := dateRows;
              fileName := "book.xlsx" |}
           [("date", VStr "2023")] [("date", VStr "2021")]
           [("date", VStr "2022")]); try reflexivity.
  intros r [<-|[<-|[<-|[]]]]; reflexivity.
Defined.

(** A summary that is built opens with the number of rows. *)
Lemma summary_opens_with_total (rows : list row) (forceSummarize : bool) :
  List.length rows = 11%nat ->
  startsWith (generateSummary rows forceSummarize) "Total rows: 11" = true.
Proof.
  intros Hlen. destruct rows as [|firstRow rest]; [discriminate|].
  unfold generateSummary. rewrite Hlen.
  replace (forceSummarize || (10 <? 11)%nat) with true
    by (symmetry; apply orb_true_r).
  unfold summaryLines. rewrite Hlen.
  destruct (fold_left _ _ _) as [categoricalStats numericStats].
  apply (startsWith_join "<br>" "Total rows: 11").
Qed.

(** C2 at its own input.  "Summarize the data" has no filter keyword
    either.  On a table of eleven rows in which no cell contains that
    text, the plain search keeps no row, the summary is built over no
    rows and reads "No data available for summary.", which does not
    begin with "Total rows: 11", although the summary of the eleven
    rows does. *)
Theorem summarize_the_data_counts_no_rows (excelData : ExcelData) :
  let query := "Summarize the data" in
  List.length (data excelData) = 11%nat ->
  (forall r, In r (data excelData) ->
             matchesSearch (toLowerCase query) r = false) ->
  rows (processExcelQuery (Some excelData) query) = []
  /\ summary (processExcelQuery (Some excelData) query)
       = "No data available for summary."
  /\ startsWith (summary (processExcelQuery (Some excelData) query))
                "Total rows: 11" = false
  /\ startsWith (generateSummary (data excelData)
                   (isSummarizeQuery (toLowerCase query)))
                "Total rows: 11" = true.
Proof.
  intros query Hlen Hnone.
  assert (E : processExcelQuery (Some excelData) query
              = {| rows := []; summary := "No data available for summary." |}).
  { apply unmatched_query_result;
      [discriminate | reflexivity | exact Hnone]. }
  rewrite E. cbn [rows summary].
  split; [reflexivity|]. split; [reflexivity|]. split; [reflexivity|].
  now apply summary_opens_with_total.
Qed.

Lemma summarize_the_data_counts_no_rows_witness :
  summary (processExcelQuery (workbook elevenRows) "Summarize the data")
    = "No data available for summary.".
Proof.
  apply (summarize_the_data_counts_no_rows
           {| sheets := ["Sheet1"]; data := elevenRows;
              fileName := "book.xlsx" |}).
  - reflexivity.
  - intros r Hr. vm_compute in Hr.
    repeat (destruct Hr as [<-|Hr]; [reflexivity|]). destruct Hr.
Defined.

(* ================================================================= *)
(** ** The sort comparator *)

Lemma Qnum_sign (r : Q) :
  match Qnum r with
  | Z0 => r == 0
  | Zpos _ => 0 < r
  | Zneg _ => r < 0
  end%Q.
Proof.
  destruct r as [n d]; destruct n; unfold Qeq, Qlt; simpl; lia.
Qed.

Lemma sign_difference (p q r : Q) :
  (r == p - q)%Q -> sign (Fin r) = (p ?= q)%Q.
Proof.
  intros E. unfold sign, Qsgn.
  pose proof (Qnum_sign r) as Hr.
  destruct (Qnum r); simpl; symmetry.
  - apply Qeq_alt. rewrite E in Hr.
    apply Qplus_inj_r with (z := (- q)%Q). rewrite Qplus_opp_r. exact Hr.
  - apply Qgt_alt. rewrite E in Hr.
    apply Qlt_minus_iff. exact Hr.
  - apply Qlt_alt. rewrite E in Hr.
    apply Qlt_minus_iff.
    setoid_replace (q + - p)%Q with (- (p - q))%Q by ring.
    apply (Qopp_lt_compat _ 0) in Hr. exact Hr.
Qed.

(** The sign of a difference is the numeric comparison. *)
Lemma sign_sub (x y : number) :
  isNaN x = false -> isNaN y = false -> sign (sub x y) = JS.compare x y.
Proof.
  destruct x as [|a|p], y as [|b|q]; try discriminate; intros _ _.
  - destruct a, b; reflexivity.
  - destruct a; reflexivity.
  - destruct b; reflexivity.
  - unfold sub, neg, add, JS.compare. apply sign_difference.
    now rewrite !Qred_correct.
Qed.

Lemma compare_antisym (x y : number) :
  JS.compare y x = CompOpp (JS.compare x y).
Proof.
  destruct x as [|a|p], y as [|b|q]; simpl; try reflexivity.
  - destruct a, b; reflexivity.
  - destruct a; reflexivity.
  - destruct b; reflexivity.
  - symmetry. apply Qcompare_antisym.
Qed.

Lemma sign_localeCompare (s t : string) :
  sign (localeCompare s t)
    = match String.compare (toLowerCase s) (toLowerCase t) with
      | Eq => String.compare (swapCase s) (swapCase t)
      | decided => decided
      end.
Proof.
  unfold localeCompare.
  destruct (String.compare (toLowerCase s) (toLowerCase t));
    [destruct (String.compare (swapCase s) (swapCase t))| |]; reflexivity.
Qed.

Lemma string_compare_Lt_iff (s t : string) :
  String.compare s t = Lt <-> lex_lt s t.
Proof.
  revert t. induction s as [|a s IH]; intros [|b t]; simpl.
  - split; [discriminate | inversion 1].
  - split; [constructor | reflexivity].
  - split; [discriminate | inversion 1].
  - unfold Ascii.compare.
    destruct (N.compare_spec (N_of_ascii a) (N_of_ascii b)) as [E|L|G].
    + assert (a = b) as ->.
      { rewrite <- (ascii_N_embedding a), <- (ascii_N_embedding b).
        now rewrite E. }
      rewrite IH. split; [apply lex_lt_tail|].
      inversion 1; subst; [lia | assumption].
    + split; [intros _; now apply lex_lt_head | reflexivity].
    + split; [discriminate|].
      inversion 1; subst; lia.
Qed.

Lemma string_compare_Gt_iff (s t : string) :
  String.compare s t = Gt <-> lex_lt t s.
Proof.
  rewrite <- string_compare_Lt_iff, (String.compare_antisym t s).
  destruct (String.compare s t); simpl; split; congruence.
Qed.

Lemma string_compare_Eq_iff (s t : string) :
  String.compare s t = Eq <-> s = t.
Proof.
  split; [apply String.compare_eq_iff|].
  intros <-. induction s as [|a s IH]; simpl; [reflexivity|].
  unfold Ascii.compare. now rewrite N.compare_refl.
Qed.

Lemma swap_unit_involutive (c : ascii) : swap_unit (swap_unit c) = c.
Proof.
  destruct c as [b0 b1 b2 b3 b4 b5 b6 b7].
  destruct b0, b1, b2, b3, b4, b5, b6, b7; reflexivity.
Qed.

Lemma swapCase_injective (s t : string) : swapCase s = swapCase t -> s = t.
Proof.
  revert t. induction s as [|a s IH]; intros [|b t]; simpl;
    try discriminate; [reflexivity|].
  intros [= Hc Hs]. f_equal; [|now apply IH].
  rewrite <- (swap_unit_involutive a), <- (swap_unit_involutive b).
  now rewrite Hc.
Qed.

(** The collation is antisymmetric. *)
Lemma localeCompare_antisym (s t : string) :
  sign (localeCompare t s) = CompOpp (sign (localeCompare s t)).
Proof.
  rewrite !sign_localeCompare.
  rewrite (String.compare_antisym (toLowerCase s) (toLowerCase t)).
  rewrite (String.compare_antisym (swapCase s) (swapCase t)).
  destruct (String.compare (toLowerCase t) (toLowerCase s));
    [destruct (String.compare (swapCase t) (swapCase s))| |]; reflexivity.
Qed.

(** How the collation orders two texts. *)
Lemma localeCompare_order (s t : string) :
  (sign (localeCompare s t) = Eq <-> s = t)
  /\ (toLowerCase s <> toLowerCase t ->
      (sign (localeCompare s t) = Lt <->
       lex_lt (toLowerCase s) (toLowerCase t)))
  /\ (toLowerCase s = toLowerCase t ->
      (sign (localeCompare s t) = Lt <->
       lex_lt (swapCase s) (swapCase t))).
Proof.
  rewrite sign_localeCompare. split; [|split].
  - split.
    + destruct (String.compare (toLowerCase s) (toLowerCase t));
        try discriminate.
      intros E. apply string_compare_Eq_iff in E.
      now apply swapCase_injective.
    + intros <-.
      rewrite (proj2 (string_compare_Eq_iff _ _) eq_refl).
      now apply string_compare_Eq_iff.
  - intros Hne.
    destruct (String.compare (toLowerCase s) (toLowerCase t)) eqn:E.
    + apply string_compare_Eq_iff in E. contradiction.
    + apply string_compare_Lt_iff in E. tauto.
    + split; [discriminate|].
      intros L. apply string_compare_Lt_iff in L. congruence.
  - intros He.
    rewrite (proj2 (string_compare_Eq_iff _ _) He).
    apply string_compare_Lt_iff.
Qed.

(** C8, as the source has it.  On the cells [valA], [valB] of the
    sort column the comparator's sign is their numeric comparison
    when both have a number form (stated where the two number forms
    are doubles as they stand, so that reading them does not round).
    Otherwise it is the sign of [localeCompare] on their texts, the
    host's collation and not the case-sensitive order of code units:
    in the root collation, which English locales share, on texts of
    unaccented Latin letters (read from a column whose name no object
    inherits), alphabetical order whatever the case, lower case first
    only between texts that differ in case alone.  The descending
    flag turns the sign around. *)
Theorem sortCompare_order (sortColumn : string) (a b : row) :
  let valA := cell a sortColumn in
  let valB := cell b sortColumn in
  let ascending := sign (sortCompare false sortColumn a b) in
  (isNaN (Number valA) = false -> isNaN (Number valB) = false ->
   exactDouble (Number valA) = true -> exactDouble (Number valB) = true ->
   ascending = JS.compare (Number valA) (Number valB)
   /\ forall p q, Number valA = Fin p -> Number valB = Fin q ->
        (ascending = Lt <-> (p < q)%Q)
        /\ (ascending = Eq <-> (p == q)%Q)
        /\ (ascending = Gt <-> (q < p)%Q))
  /\ (isNaN (Number valA) = true \/ isNaN (Number valB) = true ->
      ordinaryName sortColumn = true ->
      lettersOnly (String_ valA) = true ->
      lettersOnly (String_ valB) = true ->
      ascending = sign (localeCompare (String_ valA) (String_ valB))
      /\ (ascending = Eq <-> String_ valA = String_ valB)
      /\ (toLowerCase (String_ valA) <> toLowerCase (String_ valB) ->
          (ascending = Lt <->
           lex_lt (toLowerCase (String_ valA)) (toLowerCase (String_ valB))))
      /\ (toLowerCase (String_ valA) = toLowerCase (String_ valB) ->
          (ascending = Lt <->
           lex_lt (swapCase (String_ valA)) (swapCase (String_ valB)))))
  /\ sign (sortCompare true sortColumn a b) = CompOpp ascending.
Proof.
  intros valA valB ascending. subst ascending. unfold sortCompare.
  fold valA valB.
  destruct (isNaN (Number valA)) eqn:HA, (isNaN (Number valB)) eqn:HB;
    cbn [negb andb].
  1-3: split; [intros; discriminate|]; split;
       [ intros _ _ _ _; split; [reflexivity | apply localeCompare_order]
       | apply localeCompare_antisym ].
  split; [|split].
  - intros _ _ _ _. rewrite (sign_sub _ _ HA HB). split; [reflexivity|].
    intros p q -> ->. simpl.
    split; [symmetry; apply Qlt_alt|].
    split; [symmetry; apply Qeq_alt | symmetry; apply Qgt_alt].
  - intros [H|H]; discriminate H.
  - rewrite (sign_sub _ _ HA HB), (sign_sub _ _ HB HA).
    apply compare_antisym.
Qed.

Lemma sortCompare_order_witness :
  sign (sortCompare false "date" [("date", VStr "2021")]
                                 [("date", VStr "2023")]) = Lt
  /\ sign (sortCompare false "name" [("name", VStr "adam")]
                                    [("name", VStr "Zoe")]) = Lt.
Proof.
  split.
  - destruct (sortCompare_order "date" [("date", VStr "2021")]
                                       [("date", VStr "2023")])
      as (H & _ & _).
    destruct (H eq_refl eq_refl eq_refl eq_refl) as (_ & Hfin).
    apply (Hfin 2021 2023); reflexivity.
  - destruct (sortCompare_order "name" [("name", VStr "adam")]
                                       [("name", VStr "Zoe")])
      as (_ & H & _).
    destruct (H (or_introl eq_refl) eq_refl eq_refl eq_refl)
      as (_ & _ & Hlt & _).
    apply Hlt; [discriminate|].
    apply lex_lt_head. vm_compute. reflexivity.
Defined.

(** C8 as stated fails on texts: "Zoe" comes before "adam" in the
    case-sensitive order of code units, and the comparator puts it
    after. *)
Lemma comparator_not_lexicographic :
  isNaN (Number (VStr "Zoe")) = true
  /\ isNaN (Number (VStr "adam")) = true
  /\ lex_lt "Zoe" "adam"
  /\ sign (sortCompare false "name" [("name", VStr "Zoe")]
                                    [("name", VStr "adam")]) = Gt.
Proof.
  repeat split; try reflexivity.
  apply lex_lt_head. vm_compute. reflexivity.
Qed.

(* ================================================================= *)
(** ** Numeric statistics of the summary *)

Section ObjFacts.

Context {V : Type}.
Implicit Types (o : Obj.t V) (k : string) (v : V).

Lemma get_In o k v : Obj.get o k = Some v -> In (k, v) o.
Proof.
  induction o as [|[k' v'] o IH]; simpl; [discriminate|].
  destruct (String.eqb_spec k' k) as [->|_].
  - intros [= ->]. now left.
  - intros H. right. now apply IH.
Qed.

Lemma get_replace_same o k v :
  Obj.get o k <> None -> Obj.get (Obj.replace k v o) k = Some v.
Proof.
  induction o as [|[k' v'] o IH]; simpl; [congruence|].
  destruct (String.eqb_spec k' k) as [->|Hne]; simpl.
  - now rewrite String.eqb_refl.
  - intros H. apply String.eqb_neq in Hne. rewrite Hne. now apply IH.
Qed.

Lemma get_replace_other o k k' v :
  k' <> k -> Obj.get (Obj.replace k v o) k' = Obj.get o k'.
Proof.
  intros Hne. induction o as [|[k0 v0] o IH]; simpl; [reflexivity|].
  destruct (String.eqb_spec k0 k) as [->|H0]; simpl.
  - apply not_eq_sym, String.eqb_neq in Hne. rewrite Hne.
    reflexivity.
  - now rewrite IH.
Qed.

Lemma get_create_index_same o i k v :
  Obj.array_index k = Some i ->
  Obj.get (Obj.create_index i k v o) k = Some v.
Proof.
  intros Hk. induction o as [|[k' v'] o IH]; simpl.
  - now rewrite String.eqb_refl.
  - destruct (Obj.array_index k') as [j|] eqn:Hj.
    + destruct (N.ltb_spec j i) as [Hlt|Hge]; simpl.
      * destruct (String.eqb_spec k' k) as [->|_]; [|exact IH].
        rewrite Hk in Hj. injection Hj as <-. lia.
      * now rewrite String.eqb_refl.
    + simpl. now rewrite String.eqb_refl.
Qed.

Lemma get_create_index_other o i k k' v :
  k' <> k -> Obj.get (Obj.create_index i k v o) k' = Obj.get o k'.
Proof.
  intros Hne. apply not_eq_sym, String.eqb_neq in Hne.
  induction o as [|[k0 v0] o IH]; simpl.
  - now rewrite Hne.
  - destruct (Obj.array_index k0) as [j|].
    + destruct (j <? i)%N; simpl.
      * now rewrite IH.
      * now rewrite Hne.
    + simpl. now rewrite Hne.
Qed.

Lemma get_append o k k' v :
  Obj.get (o ++ [(k, v)])%list k'
    = match Obj.get o k' with
      | Some x => Some x
      | None => if String.eqb k k' then Some v else None
      end.
Proof.
  induction o as [|[k0 v0] o IH]; simpl; [reflexivity|].
  now destruct (String.eqb k0 k').
Qed.

(** Reading back what was written. *)
Lemma get_set_same o k v : Obj.get (Obj.set k v o) k = Some v.
Proof.
  unfold Obj.set. destruct (Obj.get o k) eqn:E.
  - apply get_replace_same. congruence.
  - destruct (Obj.array_index k) eqn:Hk.
    + now apply get_create_index_same.
    + rewrite get_append, E. now rewrite String.eqb_refl.
Qed.

(** Writing one property leaves the others as they were. *)
Lemma get_set_other o k k' v :
  k' <> k -> Obj.get (Obj.set k v o) k' = Obj.get o k'.
Proof.
  intros Hne. unfold Obj.set. destruct (Obj.get o k).
  - now apply get_replace_other.
  - destruct (Obj.array_index k).
    + now apply get_create_index_other.
    + rewrite get_append. destruct (Obj.get o k'); [reflexivity|].
      apply not_eq_sym, String.eqb_neq in Hne. now rewrite Hne.
Qed.

End ObjFacts.





Lemma compare_refl (x : number) : JS.compare x x = Eq.
Proof.
  destruct x as [|a|p]; simpl; [reflexivity | now destruct a |].
  apply Qeq_alt. reflexivity.
Qed.

Lemma compare_le_trans (x y z : number) :
  isNaN x = false -> isNaN y = false -> isNaN z = false ->
  JS.compare x y <> Gt -> JS.compare y z <> Gt -> JS.compare x z <> Gt.
Proof.
  destruct x as [|a|p], y as [|b|q], z as [|c|r];
    try discriminate; intros _ _ _; simpl;
    try (destruct a); try (destruct b); try (destruct c);
    try congruence.
  rewrite <- !Qle_alt. apply Qle_trans.
Qed.













(* ================================================================= *)
(** ** Further properties of the interpreter *)

Lemma lower_unit_idempotent (c : ascii) :
  lower_unit (lower_unit c) = lower_unit c.
Proof.
  destruct c as [b0 b1 b2 b3 b4 b5 b6 b7].
  destruct b0, b1, b2, b3, b4, b5, b6, b7; reflexivity.
Qed.

Lemma toLowerCase_idempotent (s : string) :
  toLowerCase (toLowerCase s) = toLowerCase s.
Proof.
  induction s as [|c s IH]; simpl; [reflexivity|].
  now rewrite lower_unit_idempotent, IH.
Qed.

(** X1.  The interpreter does not see the case of the query: a query
    and its lower-cased form give the same rows and the same
    summary, on every table and also without one. *)
Theorem query_case_insensitive (excelData : option ExcelData)
    (query : string) :
  processExcelQuery excelData (toLowerCase query)
    = processExcelQuery excelData query.
Proof.
  destruct excelData as [present|]; [|reflexivity].
  unfold processExcelQuery.
  destruct query as [|c query]; [reflexivity|].
  change (String.eqb (toLowerCase (String c query)) "") with false.
  change (String.eqb (String c query) "") with false.
  cbv iota. now rewrite toLowerCase_idempotent.
Qed.

Lemma filterRows_is_filter (d : list row) (queryLower : string)
    (keep : row -> bool) :
  exists keep',
    filterRows d queryLower (filter keep d) = filter keep' d.
Proof.
  unfold filterRows.
  destruct (valueMatches queryLower) as [|targetValue others];
    destruct (String.eqb _ ""); eexists; reflexivity.
Qed.

(** X2.  Whatever the query, the returned rows are rows of the table:
    a selection of them by one test per row, in table order when the
    query has no sort keyword and rearranged otherwise.  No row is
    made up and none is returned more often than the table has it. *)
Theorem rows_come_from_table (excelData : ExcelData) (query : string) :
  let result := rows (processExcelQuery (Some excelData) query) in
  (exists keep : row -> bool,
      Permutation result (filter keep (data excelData))
      /\ (isSortQuery (toLowerCase query) = false ->
          result = filter keep (data excelData)))
  /\ (forall r, In r result -> In r (data excelData))
  /\ (List.length result <= List.length (data excelData))%nat.
Proof.
  intros result.
  assert (H : exists keep : row -> bool,
             Permutation result (filter keep (data excelData))
             /\ (isSortQuery (toLowerCase query) = false ->
                 result = filter keep (data excelData))).
  { unfold result. destruct (String.eqb_spec query "") as [->|Hq].
    - exists (fun _ => false). simpl.
      assert (E : filter (fun _ : row => false) (data excelData) = []).
      { induction (data excelData); [reflexivity | assumption]. }
      rewrite E. split; [apply perm_nil | reflexivity].
    - rewrite (processExcelQuery_rows _ _ Hq). cbn [rows].
      set (q := toLowerCase query).
      assert (F : exists keep,
                 (if isFilterQuery q
                  then filterRows (data excelData) q
                         (defaultSearch (data excelData) q)
                  else defaultSearch (data excelData) q)
                 = filter keep (data excelData)).
      { destruct (isFilterQuery q).
        - apply filterRows_is_filter.
        - now exists (matchesSearch q). }
      destruct F as [keep ->]. exists keep.
      destruct (isSortQuery q).
      + split; [apply sortRows_perm | discriminate].
      + split; [apply Permutation_refl | reflexivity]. }
  split; [exact H|].
  destruct H as (keep & P & _). split.
  - intros r Hr. apply (Permutation_in _ P) in Hr.
    now apply filter_In in Hr.
  - rewrite (Permutation_length P). apply filter_length_le.
Qed.

Lemma columnPresent_iff (col : string) (r : row) :
  columnPresent col r = true <->
  cell r col <> VUndefined /\ cell r col <> VNull /\ cell r col <> VStr "".
Proof.
  unfold columnPresent.
  destruct (cell r col) as [| |b|x|[|c s]]; split;
    try (intros _; repeat split; discriminate);
    try discriminate; try reflexivity;
    intros (H1 & H2 & H3); congruence.
Qed.

(** The sort pass without a resolved column hands the rows through. *)
Lemma sortRows_no_column (d : list row) (queryLower : string) (l : list row) :
  findColumn (columns_of d) queryLower = "" -> sortRows d queryLower l = l.
Proof. intros H. unfold sortRows. now rewrite H. Qed.

(** X3.  A query with filter intent that names a column but no
    vocabulary value returns the rows of the whole table in which
    that column is present and not the empty text (a cell holding 0
    or false counts as present), whether or not the query text occurs
    in them: in table order when the query has no sort keyword, and
    rearranged by the sort pass otherwise.  Stated for a column whose
    name no object inherits. *)
Theorem filter_by_column_rows (excelData : ExcelData) (query : string) :
  let queryLower := toLowerCase query in
  let targetColumn := findColumn (columns_of (data excelData)) queryLower in
  let result := rows (processExcelQuery (Some excelData) query) in
  isFilterQuery queryLower = true ->
  valueMatches queryLower = [] ->
  targetColumn <> "" ->
  ordinaryName targetColumn = true ->
  Permutation result (filter (columnPresent targetColumn) (data excelData))
  /\ (isSortQuery queryLower = false ->
      result = filter (columnPresent targetColumn) (data excelData))
  /\ (forall r,
        In r result <->
        In r (data excelData)
        /\ cell r targetColumn <> VUndefined
        /\ cell r targetColumn <> VNull
        /\ cell r targetColumn <> VStr "").
Proof.
  intros queryLower targetColumn result Hf Hv Hcol _.
  assert (E : result
              = if isSortQuery queryLower
                then sort (sortCompare (isDescending queryLower) targetColumn)
                       (filter (columnPresent targetColumn) (data excelData))
                else filter (columnPresent targetColumn) (data excelData)).
  { unfold result.
    rewrite (processExcelQuery_rows _ _ (isFilterQuery_nonempty _ Hf)).
    cbn [rows]. fold queryLower. rewrite Hf.
    unfold filterRows, sortRows. fold targetColumn. rewrite Hv.
    apply String.eqb_neq in Hcol. rewrite Hcol. reflexivity. }
  assert (P : Permutation result
                (filter (columnPresent targetColumn) (data excelData))).
  { rewrite E. destruct (isSortQuery queryLower);
      [apply sort_perm | apply Permutation_refl]. }
  split; [exact P|]. split.
  - intros Hs. now rewrite E, Hs.
  - intros r. rewrite <- columnPresent_iff, <- filter_In. split.
    + apply Permutation_in. exact P.
    + apply Permutation_in. apply Permutation_sym. exact P.
Qed.

Lemma filter_by_column_rows_witness :
  rows (processExcelQuery
          (workbook [ [("status", VStr "OK")]; [("status", VStr "")];
                      [("other", VStr "x")] ])
          "show status")
    = [ [("status", VStr "OK")] ].
Proof.
  destruct (filter_by_column_rows
              {| sheets := ["Sheet1"];
                 data := [ [("status", VStr "OK")]; [("status", VStr "")];
                           [("other", VStr "x")] ];
                 fileName := "book.xlsx" |} "show status")
    as (_ & H & _).
  - reflexivity.
  - reflexivity.
  - discriminate.
  - reflexivity.
  - unfold workbook. rewrite H; [|reflexivity]. vm_compute. reflexivity.
Defined.

(** X4.  When the query names no column of the first row and no
    vocabulary value, filter and sort keywords change nothing: the
    rows are those of the plain search, in table order. *)
Theorem unresolved_intent_is_plain_search (excelData : ExcelData)
    (query : string) :
  query <> "" ->
  findColumn (columns_of (data excelData)) (toLowerCase query) = "" ->
  valueMatches (toLowerCase query) = [] ->
  rows (processExcelQuery (Some excelData) query)
    = filter (matchesSearch (toLowerCase query)) (data excelData).
Proof.
  intros Hq Hcol Hv.
  rewrite (processExcelQuery_rows _ _ Hq). cbn [rows].
  rewrite (sortRows_no_column _ _ _ Hcol).
  assert (F : filterRows (data excelData) (toLowerCase query)
                (defaultSearch (data excelData) (toLowerCase query))
              = defaultSearch (data excelData) (toLowerCase query)).
  { unfold filterRows. now rewrite Hv, Hcol. }
  rewrite F.
  now destruct (isSortQuery _), (isFilterQuery _).
Qed.

Lemma unresolved_intent_is_plain_search_witness :
  rows (processExcelQuery (workbook statusRows) "arrange which")
    = filter (matchesSearch "arrange which") statusRows.
Proof.
  apply (unresolved_intent_is_plain_search
           {| sheets := ["Sheet1"]; data := statusRows;
              fileName := "book.xlsx" |} "arrange which");
    [discriminate | reflexivity | reflexivity].
Defined.

(* ================================================================= *)
(** ** What the sort pass guarantees *)

Section SortOrder.

Context {A : Type} (cmp : A -> A -> number).

(** [x] may stand before [y]. *)
Let before (x y : A) : Prop := sign (cmp x y) <> Gt.

(** A list already in order is left as it is. *)
Lemma sort_of_sorted (l : list A) :
  Sorted.StronglySorted before l -> sort cmp l = l.
Proof.
  induction 1 as [|x l Hl IH Hx]; [reflexivity|].
  simpl. fold (sort cmp l). rewrite IH.
  destruct l as [|y l]; [reflexivity|].
  simpl. inversion Hx as [|? ? Hxy _]; subst.
  unfold before in Hxy. now destruct (sign (cmp x y)).
Qed.

(** Elements that never compare as "after" one another keep their
    relative order. *)
Lemma sort_stable (p : A -> bool) (l : list A) :
  (forall x y, p x = true -> p y = true -> sign (cmp x y) <> Gt) ->
  filter p (sort cmp l) = filter p l.
Proof.
  intros Hp.
  assert (Hins : forall x s,
            filter p (sort_insert cmp x s)
              = if p x then x :: filter p s else filter p s).
  { intros x s. induction s as [|y s IH]; [reflexivity|].
    simpl. destruct (sign (cmp x y)) eqn:E; try reflexivity.
    simpl. rewrite IH.
    destruct (p x) eqn:Px, (p y) eqn:Py; try reflexivity.
    exfalso. now apply (Hp x y Px Py). }
  induction l as [|x l IH]; [reflexivity|].
  simpl. fold (sort cmp l). rewrite Hins, IH. reflexivity.
Qed.

Context (P : A -> Prop).

Hypothesis before_total :
  forall x y, P x -> P y -> sign (cmp x y) = Gt -> before y x.
Hypothesis before_trans :
  forall x y z, P x -> P y -> P z -> before x y -> before y z -> before x z.

Lemma sort_insert_sorted (x : A) (l : list A) :
  P x -> Forall P l -> Sorted.StronglySorted before l ->
  Sorted.StronglySorted before (sort_insert cmp x l).
Proof.
  intros Px Pl Hl. induction Hl as [|y l Hl IH Hy]; simpl.
  - constructor; constructor.
  - inversion Pl as [|? ? Py Pl']; subst.
    destruct (sign (cmp x y)) eqn:E.
    + constructor; [now constructor|].
      assert (Hxy : before x y) by (unfold before; congruence).
      constructor; [exact Hxy|].
      rewrite Forall_forall in Hy, Pl' |- *. intros z Hz.
      apply (before_trans x y z); auto.
    + constructor; [now constructor|].
      assert (Hxy : before x y) by (unfold before; congruence).
      constructor; [exact Hxy|].
      rewrite Forall_forall in Hy, Pl' |- *. intros z Hz.
      apply (before_trans x y z); auto.
    + constructor; [now apply IH|].
      rewrite Forall_forall in Hy |- *. intros z Hz.
      apply (Permutation_in _ (sort_insert_perm cmp x l)) in Hz.
      destruct Hz as [<-|Hz]; [now apply before_total | now apply Hy].
Qed.

Lemma sort_sorted (l : list A) :
  Forall P l -> Sorted.StronglySorted before (sort cmp l).
Proof.
  induction 1 as [|x l Px Pl IH]; simpl; [constructor|].
  apply sort_insert_sorted; [exact Px | | exact IH].
  rewrite Forall_forall in Pl |- *. intros y Hy.
  apply Pl. apply (proj1 (sort_In cmp l y)). exact Hy.
Qed.

End SortOrder.

Lemma StronglySorted_weaken {A : Type} (R R' : A -> A -> Prop) (l : list A) :
  (forall a b, In a l -> In b l -> R a b -> R' a b) ->
  Sorted.StronglySorted R l -> Sorted.StronglySorted R' l.
Proof.
  intros H S. induction S as [|x l S IH Hx]; constructor.
  - apply IH. intros a b Ha Hb. apply H; now right.
  - rewrite Forall_forall in Hx |- *. intros y Hy.
    apply H; [now left | now right | now apply Hx].
Qed.

(** The sign of the comparator on two rows whose sort cells have a
    number form. *)
Lemma sortCompare_numeric (descending : bool) (col : string) (a b : row) :
  isNaN (Number (cell a col)) = false ->
  isNaN (Number (cell b col)) = false ->
  sign (sortCompare descending col a b)
    = if descending
      then JS.compare (Number (cell b col)) (Number (cell a col))
      else JS.compare (Number (cell a col)) (Number (cell b col)).
Proof.
  intros Ha Hb. unfold sortCompare. rewrite Ha, Hb. cbn [negb andb].
  destruct descending; now apply sign_sub.
Qed.

Lemma sortCompare_sorts (descending : bool) (col : string) (l : list row) :
  (forall r, In r l -> isNaN (Number (cell r col)) = false) ->
  Sorted.StronglySorted
    (fun a b => sign (sortCompare descending col a b) <> Gt)
    (sort (sortCompare descending col) l).
Proof.
  intros Hl.
  apply (sort_sorted _ (fun r => isNaN (Number (cell r col)) = false)).
  - intros x y Hx Hy E.
    rewrite (sortCompare_numeric _ _ _ _ Hx Hy) in E.
    rewrite (sortCompare_numeric _ _ _ _ Hy Hx).
    destruct descending; rewrite compare_antisym, E; discriminate.
  - intros x y z Hx Hy Hz.
    rewrite (sortCompare_numeric _ _ _ _ Hx Hy),
            (sortCompare_numeric _ _ _ _ Hy Hz),
            (sortCompare_numeric _ _ _ _ Hx Hz).
    destruct descending; intros H1 H2.
    + now apply (compare_le_trans _ (Number (cell y col))).
    + now apply (compare_le_trans _ (Number (cell y col))).
  - now apply Forall_forall.
Qed.

Lemma exactKey_number (col : string) (r : row) :
  exactKey col r = true -> isNaN (Number (cell r col)) = false.
Proof.
  unfold exactKey. intros H. apply andb_true_iff in H as [H _].
  now apply negb_true_iff in H.
Qed.

(** X5.  When the query names a column and every row handed to the
    sort pass has, in that column, a number form that is a double as
    it stands, the pass returns the rows in numeric order of that
    column: never decreasing when the query is ascending, never
    increasing when it is descending. *)
Theorem sort_pass_orders_numbers (d : list row) (queryLower : string)
    (l : list row) :
  let sortColumn := findColumn (columns_of d) queryLower in
  sortColumn <> "" ->
  (forall r, In r l -> exactKey sortColumn r = true) ->
  Sorted.StronglySorted
    (fun a b =>
       JS.compare (Number (cell a sortColumn)) (Number (cell b sortColumn))
         <> (if isDescending queryLower then Lt else Gt))
    (sortRows d queryLower l).
Proof.
  intros sortColumn Hcol Hexact.
  assert (Hl : forall r, In r l ->
                 isNaN (Number (cell r sortColumn)) = false)
    by (intros r Hr; now apply exactKey_number, Hexact).
  unfold sortRows. fold sortColumn.
  apply String.eqb_neq in Hcol. rewrite Hcol.
  apply (StronglySorted_weaken
           (fun a b =>
              sign (sortCompare (isDescending queryLower) sortColumn a b)
                <> Gt)).
  - intros a b Ha Hb.
    apply (proj1 (sort_In _ _ _)) in Ha.
    apply (proj1 (sort_In _ _ _)) in Hb.
    rewrite (sortCompare_numeric _ _ _ _ (Hl a Ha) (Hl b Hb)).
    destruct (isDescending queryLower); [|auto].
    rewrite compare_antisym.
    destruct (JS.compare (Number (cell a sortColumn))
                         (Number (cell b sortColumn))); simpl; congruence.
  - now apply sortCompare_sorts.
Qed.

Lemma sort_pass_orders_numbers_witness :
  Sorted.StronglySorted
    (fun a b => JS.compare (Number (cell a "date")) (Number (cell b "date"))
                  <> Lt)
    (sortRows dateRows "sort by date descending" dateRows).
Proof.
  pose proof (sort_pass_orders_numbers dateRows "sort by date descending"
                dateRows) as H.
  apply H.
  - discriminate.
  - intros r [<-|[<-|[<-|[]]]]; reflexivity.
Defined.

(** X6.  Under the same condition sorting is idempotent: the sort
    pass applied to its own output returns it unchanged. *)
Theorem sort_pass_idempotent (d : list row) (queryLower : string)
    (l : list row) :
  (forall r, In r l ->
     isNaN (Number (cell r (findColumn (columns_of d) queryLower))) = false) ->
  sortRows d queryLower (sortRows d queryLower l) = sortRows d queryLower l.
Proof.
  intros Hl. unfold sortRows.
  destruct (String.eqb _ ""); [reflexivity|].
  apply sort_of_sorted. now apply sortCompare_sorts.
Qed.

Lemma sort_pass_idempotent_witness :
  sortRows dateRows "sort by date"
    (sortRows dateRows "sort by date" dateRows)
    = sortRows dateRows "sort by date" dateRows.
Proof.
  apply (sort_pass_idempotent dateRows "sort by date" dateRows).
  intros r [<-|[<-|[<-|[]]]]; reflexivity.
Defined.

(** X7.  The sort pass is stable on equal numbers: when every row
    handed to it has, in the sort column, a number form that is a
    double as it stands, then for every number [k] the rows whose
    sort cell has the number form [k] leave the pass in the order in
    which they entered it. *)
Theorem sort_pass_stable (d : list row) (queryLower : string)
    (l : list row) (k : Q) :
  let sortColumn := findColumn (columns_of d) queryLower in
  (forall r, In r l -> exactKey sortColumn r = true) ->
  filter (hasKey sortColumn k) (sortRows d queryLower l)
    = filter (hasKey sortColumn k) l.
Proof.
  intros sortColumn _. unfold sortRows. fold sortColumn.
  destruct (String.eqb sortColumn ""); [reflexivity|].
  apply sort_stable. intros x y Hx Hy. unfold hasKey in Hx, Hy.
  destruct (Number (cell x sortColumn)) as [| |p] eqn:Ex; try discriminate.
  destruct (Number (cell y sortColumn)) as [| |q] eqn:Ey; try discriminate.
  rewrite sortCompare_numeric by (rewrite ?Ex, ?Ey; reflexivity).
  rewrite Ex, Ey.
  apply Qeq_bool_iff in Hx, Hy.
  assert (E : (p == q)%Q) by (rewrite Hx, Hy; reflexivity).
  destruct (isDescending queryLower); simpl.
  - assert (E' : (q ?= p)%Q = Eq) by (apply Qeq_alt; now symmetry).
    rewrite E'. discriminate.
  - assert (E' : (p ?= q)%Q = Eq) by now apply Qeq_alt.
    rewrite E'. discriminate.
Qed.

Lemma sort_pass_stable_witness :
  filter (hasKey "n" 1)
    (sortRows [ [("n", VNum (ofZ 2)); ("id", VStr "a")];
                [("n", VNum (ofZ 1)); ("id", VStr "b")];
                [("n", VStr "1"); ("id", VStr "c")] ]
       "sort by n"
       [ [("n", VNum (ofZ 2)); ("id", VStr "a")];
         [("n", VNum (ofZ 1)); ("id", VStr "b")];
         [("n", VStr "1"); ("id", VStr "c")] ])
    = [ [("n", VNum (ofZ 1)); ("id", VStr "b")];
        [("n", VStr "1"); ("id", VStr "c")] ].
Proof.
  rewrite (sort_pass_stable
             [ [("n", VNum (ofZ 2)); ("id", VStr "a")];
               [("n", VNum (ofZ 1)); ("id", VStr "b")];
               [("n", VStr "1"); ("id", VStr "c")] ]
             "sort by n").
  - reflexivity.
  - intros r [<-|[<-|[<-|[]]]]; reflexivity.
Defined.

(* ================================================================= *)
(** ** When a summary is built and what it counts *)

Lemma startsWith_nonempty (s t : string) :
  startsWith s t = true -> t <> "" -> s <> "".
Proof.
  intros H Ht ->. destruct t; [now apply Ht | discriminate H].
Qed.

Lemma summaryLines_head (firstRow : row) (rows : list row) :
  exists rest,
    summaryLines firstRow rows
      = ("Total rows: " ++ decimal (N.of_nat (List.length rows))) :: rest.
Proof.
  unfold summaryLines.
  destruct (fold_left _ _ _) as [categoricalStats numericStats].
  eexists. reflexivity.
Qed.

(** X8.  The summary is the empty text exactly when there are rows,
    at most ten of them, and no summary was asked for. *)
Theorem summary_empty_iff (rows : list row) (forceSummarize : bool) :
  generateSummary rows forceSummarize = "" <->
  rows <> [] /\ forceSummarize = false /\ (List.length rows <= 10)%nat.
Proof.
  split.
  - destruct rows as [|firstRow rest]; [discriminate|].
    unfold generateSummary.
    destruct (forceSummarize || (10 <? _)%nat) eqn:T.
    + destruct (summaryLines_head firstRow (firstRow :: rest)) as [more ->].
      intros E. exfalso.
      pose proof (startsWith_join "<br>"
                    ("Total rows: "
                       ++ decimal (N.of_nat (List.length (firstRow :: rest))))
                    more) as S.
      rewrite E in S. discriminate S.
    + intros _. apply orb_false_iff in T as [-> T].
      apply Nat.ltb_ge in T. repeat split; [discriminate | exact T].
  - intros (Hne & -> & Hlen).
    destruct rows as [|firstRow rest]; [contradiction|].
    unfold generateSummary.
    apply Nat.ltb_ge in Hlen. now rewrite Hlen.
Qed.

(** X9.  Whenever rows are returned and either the query carries a
    summarize keyword or there are more than ten of them, the summary
    of the result opens with "Total rows: " and their number; a large
    result is summarised without being asked. *)
Theorem summary_opens_with_row_count (excelData : ExcelData)
    (query : string) :
  let result := processExcelQuery (Some excelData) query in
  rows result <> [] ->
  isSummarizeQuery (toLowerCase query) = true
  \/ (10 < List.length (rows result))%nat ->
  startsWith (summary result)
    ("Total rows: " ++ decimal (N.of_nat (List.length (rows result))))
    = true.
Proof.
  intros result Hne Htrigger. subst result.
  destruct (String.eqb_spec query "") as [->|Hq];
    [now contradiction Hne|].
  rewrite (processExcelQuery_rows _ _ Hq) in *.
  cbn [rows summary] in *.
  match goal with
  | |- context [generateSummary ?l _] => set (returned := l) in *
  end.
  destruct returned as [|firstRow rest] eqn:E; [contradiction|].
  unfold generateSummary.
  assert (T : isSummarizeQuery (toLowerCase query)
              || (10 <? List.length (firstRow :: rest))%nat = true).
  { apply orb_true_iff. destruct Htrigger as [H|H]; [now left|right].
    now apply Nat.ltb_lt. }
  rewrite T.
  destruct (summaryLines_head firstRow (firstRow :: rest)) as [more ->].
  apply startsWith_join.
Qed.

Lemma summary_opens_with_row_count_witness :
  startsWith (summary (processExcelQuery (workbook elevenRows) "ok"))
             "Total rows: 11" = true.
Proof.
  pose proof (summary_opens_with_row_count
                {| sheets := ["Sheet1"]; data := elevenRows;
                   fileName := "book.xlsx" |} "ok") as H.
  cbv zeta in H.
  assert (R : rows (processExcelQuery (workbook elevenRows) "ok")
              = elevenRows) by (vm_compute; reflexivity).
  unfold workbook in R |- *. rewrite R in H.
  apply H.
  - discriminate.
  - right. vm_compute. lia.
Defined.

Section CountFacts.

Context {V : Type}.
Implicit Types (o : Obj.t V) (k : string) (v : V).

Lemma get_None_iff o k : Obj.get o k = None <-> ~ In k (Obj.keys o).
Proof.
  induction o as [|[k' v'] o IH]; simpl; [tauto|].
  destruct (String.eqb_spec k' k) as [->|Hne].
  - split; [discriminate | intros H; exfalso; apply H; now left].
  - rewrite IH. tauto.
Qed.

Lemma In_get o k v :
  NoDup (Obj.keys o) -> In (k, v) o -> Obj.get o k = Some v.
Proof.
  induction o as [|[k' v'] o IH]; simpl; [tauto|].
  intros Hnd [E|Hin].
  - injection E as -> ->. now rewrite String.eqb_refl.
  - inversion Hnd as [|? ? Hk' Hnd']; subst.
    destruct (String.eqb_spec k' k) as [->|_].
    + exfalso. apply Hk'. apply (in_map fst) in Hin. exact Hin.
    + now apply IH.
Qed.

Lemma keys_replace o k v :
  Obj.get o k <> None -> Obj.keys (Obj.replace k v o) = Obj.keys o.
Proof.
  induction o as [|[k' v'] o IH]; simpl; [reflexivity|].
  destruct (String.eqb_spec k' k) as [->|_]; simpl; [reflexivity|].
  intros H. f_equal. now apply IH.
Qed.

Lemma keys_create_index o i k v :
  Permutation (Obj.keys (Obj.create_index i k v o)) (k :: Obj.keys o).
Proof.
  induction o as [|[k' v'] o IH]; simpl; [apply Permutation_refl|].
  destruct (Obj.array_index k') as [j|]; [destruct (j <? i)%N|];
    simpl; try apply Permutation_refl.
  apply Permutation_trans with (k' :: k :: Obj.keys o);
    [now apply perm_skip | apply perm_swap].
Qed.

(** Writing a property keeps the keys of an object distinct. *)
Lemma NoDup_keys_set o k v :
  NoDup (Obj.keys o) -> NoDup (Obj.keys (Obj.set k v o)).
Proof.
  intros Hnd. unfold Obj.set. destruct (Obj.get o k) eqn:E.
  - rewrite keys_replace; [exact Hnd | congruence].
  - apply get_None_iff in E.
    destruct (Obj.array_index k) as [i|].
    + apply (Permutation_NoDup
               (Permutation_sym (keys_create_index o i k v))).
      now constructor.
    + unfold Obj.keys. rewrite map_app. simpl.
      apply (Permutation_NoDup (Permutation_cons_append _ k)).
      now constructor.
Qed.

End CountFacts.

Lemma countValues_get (col : string) (rows : list row) (c0 : Obj.t nat)
    (v : string) :
  Obj.get
    (fold_left
       (fun counts r =>
          let val := String_ (cell r col) in
          let seen :=
            match Obj.get counts val with Some c => c | None => O end in
          Obj.set val (seen + 1)%nat counts)
       rows c0) v
    = match count_occ string_dec (columnTexts rows col) v with
      | O => Obj.get c0 v
      | S n =>
          Some (S n + match Obj.get c0 v with Some c => c | None => O end)%nat
      end.
Proof.
  revert c0. induction rows as [|r rows IH]; intros c0; [reflexivity|].
  cbn [fold_left columnTexts map count_occ]. rewrite IH.
  fold (columnTexts rows col).
  destruct (string_dec (String_ (cell r col)) v) as [->|Hne].
  - rewrite get_set_same.
    destruct (count_occ string_dec (columnTexts rows col) v);
      f_equal; lia.
  - rewrite get_set_other by (now apply not_eq_sym).
    reflexivity.
Qed.

Lemma countValues_NoDup (col : string) (rows : list row) (c0 : Obj.t nat) :
  NoDup (Obj.keys c0) ->
  NoDup
    (Obj.keys
       (fold_left
          (fun counts r =>
             let val := String_ (cell r col) in
             let seen :=
               match Obj.get counts val with Some c => c | None => O end in
             Obj.set val (seen + 1)%nat counts)
          rows c0)).
Proof.
  revert c0. induction rows as [|r rows IH]; intros c0 H; [exact H|].
  cbn [fold_left]. apply IH. now apply NoDup_keys_set.
Qed.

(** The entries of the frequency table of a column. *)
Lemma countValues_entries (rows : list row) (col : string) :
  NoDup (Obj.keys (countValues rows col))
  /\ forall v n,
       In (v, n) (countValues rows col) <->
       (0 < n)%nat /\ n = count_occ string_dec (columnTexts rows col) v.
Proof.
  assert (Hnd : NoDup (Obj.keys (countValues rows col)))
    by (apply countValues_NoDup; constructor).
  split; [exact Hnd|]. intros v n.
  assert (G : Obj.get (countValues rows col) v
              = match count_occ string_dec (columnTexts rows col) v with
                | O => None
                | S m => Some (S m)
                end).
  { unfold countValues. rewrite countValues_get. simpl.
    destruct (count_occ _ _ _); [reflexivity | f_equal; lia]. }
  split.
  - intros Hin. apply (In_get _ _ _ Hnd) in Hin. rewrite G in Hin.
    destruct (count_occ _ _ _); [discriminate|].
    injection Hin as <-. split; [lia | reflexivity].
  - intros [Hpos ->]. apply get_In. rewrite G.
    destruct (count_occ _ _ _); [lia | reflexivity].
Qed.

(** X10.  For a column whose name and cell texts are no names every
    object inherits, the frequency table of the column holds every
    distinct text of the column once, with the exact number of rows
    showing it, and nothing else. *)
Theorem value_counts_exact (rows : list row) (col : string) :
  ordinaryColumn rows col = true ->
  NoDup (Obj.keys (countValues rows col))
  /\ forall v n,
       In (v, n) (countValues rows col) <->
       (0 < n)%nat /\ n = count_occ string_dec (columnTexts rows col) v.
Proof.
  intros _. split.
  - apply countValues_NoDup. constructor.
  - intros v n. apply countValues_entries.
Qed.

Lemma value_counts_exact_witness :
  In ("OK", 2%nat) (countValues statusRows "status")
  /\ ~ In ("OK", 3%nat) (countValues statusRows "status").
Proof.
  destruct (value_counts_exact statusRows "status" eq_refl) as (_ & H).
  split.
  - apply H. split; [lia | reflexivity].
  - intros Hin. apply H in Hin as [_ E]. discriminate E.
Defined.

Lemma compare_ofNat (m n : nat) :
  JS.compare (ofNat m) (ofNat n) = Nat.compare m n.
Proof.
  unfold ofNat, JS.compare, Qcompare, inject_Z. simpl.
  rewrite !Z.mul_1_r. apply Nat2Z.inj_compare.
Qed.

Lemma StronglySorted_app {A : Type} (R : A -> A -> Prop) (l1 l2 : list A) :
  Sorted.StronglySorted R (l1 ++ l2) ->
  Sorted.StronglySorted R l1
  /\ forall a b, In a l1 -> In b l2 -> R a b.
Proof.
  induction l1 as [|x l1 IH]; simpl; intros H.
  - split; [constructor | intros a b []].
  - inversion H as [|? ? Hs Hx]; subst.
    destruct (IH Hs) as [S1 Hcross].
    rewrite Forall_forall in Hx. split.
    + constructor; [exact S1|].
      apply Forall_forall. intros y Hy. apply Hx, in_or_app. now left.
    + intros a b [<-|Ha] Hb; [|now apply Hcross].
      apply Hx, in_or_app. now right.
Qed.

(** The frequency entries ranked as the summary ranks them. *)
Lemma ranked_counts (counts : Obj.t nat) :
  Sorted.StronglySorted (fun a b => (snd b <= snd a)%nat)
    (sort (fun a b : string * nat => sub (ofNat (snd b)) (ofNat (snd a)))
          counts).
Proof.
  apply (StronglySorted_weaken
           (fun a b : string * nat =>
              sign (sub (ofNat (snd b)) (ofNat (snd a))) <> Gt)).
  - intros a b _ _. rewrite sign_sub, compare_ofNat by reflexivity.
    intros H. destruct (Nat.compare_spec (snd b) (snd a)); try lia.
    congruence.
  - apply (sort_sorted _ (fun _ => True)).
    + intros x y _ _. rewrite !sign_sub, !compare_ofNat by reflexivity.
      intros E. apply Nat.compare_gt_iff in E.
      intros E'. apply Nat.compare_gt_iff in E'. lia.
    + intros x y z _ _ _.
      rewrite !sign_sub, !compare_ofNat by reflexivity.
      intros H1 H2 E. apply Nat.compare_gt_iff in E.
      destruct (Nat.compare_spec (snd y) (snd x)); try congruence;
        destruct (Nat.compare_spec (snd z) (snd y)); try congruence; lia.
    + apply Forall_forall. intros; exact I.
Qed.

(** After the [columns.forEach], a column of the first row with at
    most ten distinct texts has its frequency table recorded. *)
Lemma collectColumn_counts (rows : list row) (col : string)
    (columns : list string)
    (acc : Obj.t (Obj.t nat) * Obj.t Stats) :
  (List.length (uniqueValues rows col) <= 10)%nat ->
  In col columns \/ Obj.get (fst acc) col = Some (countValues rows col) ->
  Obj.get (fst (fold_left (collectColumn rows) columns acc)) col
    = Some (countValues rows col).
Proof.
  intros Hfew. apply Nat.leb_le in Hfew. revert acc.
  induction columns as [|c columns IH]; intros acc H; simpl.
  - destruct H as [[]|H]. exact H.
  - apply IH.
    destruct (string_dec c col) as [->|Hne].
    + right. destruct acc as [categoricalStats numericStats].
      unfold collectColumn. rewrite Hfew. simpl. apply get_set_same.
    + destruct H as [[H|H]|H]; [contradiction | now left | right].
      destruct acc as [categoricalStats numericStats].
      unfold collectColumn. simpl in H |- *.
      destruct (List.length (uniqueValues rows c) <=? 10)%nat; [|exact H].
      rewrite get_set_other; [exact H | now apply not_eq_sym].
Qed.

Lemma distribution_entries (total : nat) (top : list (string * nat)) :
  map (distributionEntry total) top
    = map (fun ep => entryText (fst ep) (snd ep))
        (combine top
           (map (fun e : string * nat =>
                   toFixed 1
                     (mul (div (ofNat (snd e)) (ofNat total)) (Fin 100)))
                top)).
Proof.
  induction top as [|[val count] top IH]; [reflexivity|].
  cbn [map combine fst snd]. now rewrite <- IH.
Qed.

(** X11.  In a built summary, every column of the first row with at
    most ten distinct texts, whose name and cell texts are no names
    every object inherits, gets a distribution line: the column name,
    then the texts of highest frequency, at most three, most frequent
    first, each with its count and a percentage, separated by commas;
    no text left out is more frequent than a listed one. *)
Theorem distribution_line_top_three (firstRow : row) (rest : list row)
    (forceSummarize : bool) (col : string) :
  let rows := firstRow :: rest in
  forceSummarize || (10 <? List.length rows)%nat = true ->
  In col (Obj.keys firstRow) ->
  (List.length (uniqueValues rows col) <= 10)%nat ->
  ordinaryColumn rows col = true ->
  exists (top others : list (string * nat)) (percentages : list string),
    Permutation (top ++ others) (countValues rows col)
    /\ top <> []
    /\ (List.length top <= 3)%nat
    /\ (others <> [] -> List.length top = 3%nat)
    /\ Sorted.StronglySorted (fun a b => (snd b <= snd a)%nat) top
    /\ (forall a b, In a top -> In b others -> (snd b <= snd a)%nat)
    /\ List.length percentages = List.length top
    /\ includes (generateSummary rows forceSummarize)
         (col ++ " distribution: "
              ++ join ", "
                   (map (fun ep => entryText (fst ep) (snd ep))
                        (combine top percentages)))
       = true.
Proof.
  intros rows Htrigger Hcol Hfew _.
  set (counts := countValues rows col).
  set (ranked :=
         sort (fun a b : string * nat => sub (ofNat (snd b)) (ofNat (snd a)))
              counts).
  exists (firstn 3 ranked), (skipn 3 ranked),
    (map (fun e : string * nat =>
            toFixed 1
              (mul (div (ofNat (snd e)) (ofNat (List.length rows)))
                   (Fin 100)))
         (firstn 3 ranked)).
  assert (Hsorted : Sorted.StronglySorted
                      (fun a b : string * nat => (snd b <= snd a)%nat)
                      (firstn 3 ranked ++ skipn 3 ranked)).
  { rewrite firstn_skipn. apply ranked_counts. }
  apply StronglySorted_app in Hsorted as [Htop Hcross].
  assert (Hcounts : counts <> []).
  { assert (G : In (String_ (cell firstRow col),
                    count_occ string_dec (columnTexts rows col)
                      (String_ (cell firstRow col))) counts).
    { apply countValues_entries. split; [|reflexivity].
      unfold rows. cbn [columnTexts map count_occ].
      destruct (string_dec _ _); [lia | contradiction]. }
    intros E. rewrite E in G. destruct G. }
  assert (Hranked : ranked <> []).
  { intros E. apply Hcounts.
    apply Permutation_nil. rewrite <- E. unfold ranked. apply sort_perm. }
  assert (Hne : firstn 3 ranked <> []).
  { destruct ranked; [contradiction | discriminate]. }
  split; [rewrite firstn_skipn; apply sort_perm|].
  split; [exact Hne|].
  split; [apply firstn_le_length|].
  split.
  { intros Ho. rewrite length_firstn.
    destruct ranked as [|a [|b [|c more]]]; simpl in *;
      try contradiction; reflexivity. }
  split; [exact Htop|]. split; [exact Hcross|].
  split; [apply length_map|].
  rewrite <- distribution_entries.
  unfold generateSummary, rows. fold rows. rewrite Htrigger.
  apply includes_join. unfold summaryLines.
  pose proof (collectColumn_counts rows col (Obj.keys firstRow) ([], [])
                Hfew (or_introl Hcol)) as Hget.
  destruct (fold_left _ _ _) as [categoricalStats numericStats].
  right. apply in_or_app. right.
  apply get_In in Hget. cbn [fst] in Hget.
  apply in_flat_map. exists (col, countValues rows col).
  split; [exact Hget|].
  unfold distributionLine. fold counts ranked.
  destruct (firstn 3 ranked) eqn:E; [contradiction|].
  now left.
Qed.

Lemma distribution_line_top_three_witness :
  exists (top others : list (string * nat)) (percentages : list string),
    Permutation (top ++ others) (countValues statusRows "status")
    /\ top <> []
    /\ (List.length top <= 3)%nat
    /\ (others <> [] -> List.length top = 3%nat)
    /\ Sorted.StronglySorted (fun a b => (snd b <= snd a)%nat) top
    /\ (forall a b, In a top -> In b others -> (snd b <= snd a)%nat)
    /\ List.length percentages = List.length top
    /\ includes (generateSummary statusRows true)
         ("status" ++ " distribution: "
              ++ join ", "
                   (map (fun ep => entryText (fst ep) (snd ep))
                        (combine top percentages)))
       = true.
Proof.
  apply (distribution_line_top_three
           [("status", VStr "OK")]
           [ [("status", VStr "OK")]; [("status", VStr "FAIL")] ]
           true "status").
  - reflexivity.
  - now left.
  - vm_compute. lia.
  - reflexivity.
Defined.

(* ================================================================= *)
(** ** What the rendered response shows *)

Lemma includes_app_l (a b t : string) :
  includes a t = true -> includes (a ++ b) t = true.
Proof.
  rewrite !includes_iff. intros (pre & post & ->).
  exists pre, (post ++ b). now rewrite !string_app_assoc.
Qed.

Lemma includes_app_r (a b t : string) :
  includes b t = true -> includes (a ++ b) t = true.
Proof.
  rewrite !includes_iff. intros (pre & post & ->).
  exists (a ++ pre), post. now rewrite !string_app_assoc.
Qed.

Lemma includes_refl (t : string) : includes t t = true.
Proof.
  apply includes_iff. exists "", "". simpl.
  induction t as [|c t IH]; simpl; [reflexivity | now rewrite <- IH].
Qed.

Lemma includes_join_map {A : Type} (f : A -> string) (l : list A) (x : A)
    (sep : string) :
  In x l -> includes (join sep (map f l)) (f x) = true.
Proof. intros H. apply includes_join. now apply in_map. Qed.

(** X12.  The fixed paragraph "No matching data found in the Excel
    sheet." is the response exactly when no rows are returned; the
    summary of such a result is not shown, so neither "No data
    available" text reaches the display. *)
Theorem no_match_paragraph_iff (result : QueryResult) :
  (formatResponse result = noMatchResponse <-> rows result = [])
  /\ (rows result = [] ->
      includes (formatResponse result) "No data available" = false).
Proof.
  split; [split|].
  - unfold formatResponse.
    destruct (rows result) as [|first rest]; [reflexivity|].
    destruct (String.eqb (summary result) "");
      unfold resultTable, summaryBox, nl, noMatchResponse;
      cbn [append]; intros E; discriminate E.
  - unfold formatResponse. now intros ->.
  - unfold formatResponse. intros ->. reflexivity.
Qed.

Ltac find_part H :=
  repeat first [ apply includes_app_l; exact H | apply includes_app_r ].

(** X13.  A result with rows is rendered as a count line and a table
    whose header cells are the columns of the first returned row and
    whose data cells carry, for every returned row and each of those
    columns whose name no object inherits, the text of the cell
    exactly as [String] gives it (no character is escaped; a missing
    cell reads "undefined"); stated for the cells that are not
    fractional or very large numbers.  The summary box comes first
    when the summary is not empty. *)
Theorem rendered_table_shows_cells (result : QueryResult)
    (first : row) (rest : list row) :
  rows result = first :: rest ->
  includes (formatResponse result)
    ("<p>Found " ++ decimal (N.of_nat (List.length (rows result)))
                 ++ " matching row(s):</p>") = true
  /\ (forall col,
        In col (Obj.keys first) ->
        includes (formatResponse result) (headerCell col) = true)
  /\ (forall r col,
        In r (rows result) -> In col (Obj.keys first) ->
        ordinaryName col = true -> plainCell (cell r col) = true ->
        includes (formatResponse result)
          (">" ++ String_ (cell r col) ++ "</td>") = true)
  /\ startsWith (formatResponse result)
       (if String.eqb (summary result) ""
        then nl ++ "      <p>Found "
        else summaryBox (summary result)) = true.
Proof.
  intros Hrows. unfold formatResponse. rewrite Hrows.
  cbv zeta. rewrite <- Hrows.
  split; [|split; [|split]].
  - apply includes_app_r. unfold resultTable. apply includes_app_r.
    change ("      <p>Found "
              ++ decimal (N.of_nat (List.length (rows result))) ++ ?x)
      with ("      " ++ "<p>Found "
              ++ decimal (N.of_nat (List.length (rows result))) ++ x).
    apply includes_app_r.
    apply includes_iff. exists "". eexists.
    rewrite !string_app_assoc. reflexivity.
  - intros col Hcol.
    pose proof (includes_join_map headerCell _ _ "" Hcol) as H.
    apply includes_app_r. unfold resultTable. find_part H.
  - intros r col Hr Hcol _ _.
    assert (H : includes
                  (join "" (map (tableRow (Obj.keys first)) (rows result)))
                  (">" ++ String_ (cell r col) ++ "</td>") = true).
    { apply (includes_trans _ (tableRow (Obj.keys first) r));
        [now apply includes_join_map|].
      unfold tableRow. apply includes_app_r, includes_app_l.
      apply (includes_trans _ (dataCell r col));
        [now apply includes_join_map|].
      unfold dataCell. do 4 apply includes_app_r. apply includes_refl. }
    apply includes_app_r. unfold resultTable. find_part H.
  - destruct (String.eqb (summary result) ""); cbn [append].
    + unfold resultTable.
      rewrite <- (string_app_assoc nl "      <p>Found ").
      apply startsWith_app.
    + apply startsWith_app.
Qed.

Lemma rendered_table_shows_cells_witness :
  includes
    (formatResponse
       {| rows := [ [("note", VStr "<b>x</b>")] ]; summary := "" |})
    "><b>x</b></td>" = true.
Proof.
  destruct (rendered_table_shows_cells
              {| rows := [ [("note", VStr "<b>x</b>")] ]; summary := "" |}
              [("note", VStr "<b>x</b>")] [] eq_refl)
    as (_ & _ & H & _).
  apply (H [("note", VStr "<b>x</b>")] "note");
    [now left | now left | reflexivity | reflexivity].
Defined.

(* ================================================================= *)
(** ** The component's state across its handlers *)

Lemma readExcelFile_files (file : App.File) (st : App.State) :
  App.excelFiles (App.readExcelFile file st) = App.excelFiles st
  /\ App.selectedFile (App.readExcelFile file st) = App.selectedFile st
  /\ App.chatHistory (App.readExcelFile file st) = App.chatHistory st
  /\ App.query (App.readExcelFile file st) = App.query st.
Proof.
  unfold App.readExcelFile.
  destruct (App.workbook file) as [|[firstSheet sheetData] more];
    repeat split; reflexivity.
Qed.

Lemma findFile_listed (wanted : string) (files : list App.File)
    (file : App.File) :
  App.findFile wanted files = Some file ->
  In file files /\ App.name file = wanted.
Proof.
  unfold App.findFile. intros H. apply find_some in H as [Hin E].
  split; [exact Hin | now apply String.eqb_eq].
Qed.

(** X14.  The selected name is always empty or the name of a listed
    file: uploading, removing, choosing a listed file and submitting
    a query all keep it so, from the initial state on. *)
Theorem selection_stays_listed (st : App.State) :
  App.selectionListed App.initial
  /\ (App.selectionListed st ->
      (forall files, App.selectionListed (App.handleFileUpload files st))
      /\ (forall fileName, App.selectionListed (App.removeFile fileName st))
      /\ (forall fileName,
            In fileName (map App.name (App.excelFiles st)) ->
            App.selectionListed (App.handleFileChange fileName st))
      /\ (forall now, App.selectionListed (App.chatWithExcel now st))).
Proof.
  split; [now left|]. intros Hst.
  split; [|split; [|split]].
  - intros [files|]; [|exact Hst].
    unfold App.handleFileUpload, App.selectionListed.
    destruct files as [|first more]; cbn.
    + destruct Hst as [E|Hin]; [now left | right].
      now rewrite app_nil_r.
    + destruct (readExcelFile_files first
                  (App.setSelectedFile (App.name first)
                     (App.setExcelFiles
                        (App.excelFiles st ++ first :: more) st)))
        as (-> & -> & _).
      right. cbn. rewrite map_app. apply in_or_app. right. now left.
  - intros fileName. unfold App.removeFile, App.selectionListed.
    destruct (String.eqb_spec (App.selectedFile st) fileName) as [E|Hne].
    + destruct (filter _ (App.excelFiles st)) as [|first more] eqn:F.
      * now left.
      * destruct (readExcelFile_files first
                    (App.setSelectedFile (App.name first)
                       (App.setExcelFiles (first :: more) st)))
          as (-> & -> & _).
        right. cbn. now left.
    + cbn. destruct Hst as [E|Hin]; [now left | right].
      apply in_map_iff in Hin as (f & Hf & Hin).
      apply in_map_iff. exists f. split; [exact Hf|].
      apply filter_In. split; [exact Hin|].
      apply negb_true_iff, String.eqb_neq. congruence.
  - intros fileName Hin. unfold App.handleFileChange, App.selectionListed.
    change (App.excelFiles (App.setSelectedFile fileName st))
      with (App.excelFiles st).
    destruct (App.findFile fileName (App.excelFiles st)) as [file|].
    + unfold App.setIsFileDrawerOpen.
      cbn [App.selectedFile App.excelFiles].
      destruct (readExcelFile_files file (App.setSelectedFile fileName st))
        as (-> & -> & _).
      right. exact Hin.
    + right. exact Hin.
  - intros now. unfold App.chatWithExcel, App.selectionListed.
    destruct (App.excelData st); [|exact Hst].
    destruct (String.eqb (App.query st) ""); exact Hst.
Qed.

Lemma selection_stays_listed_witness :
  App.selectionListed
    (App.removeFile "a.xlsx"
       (App.handleFileUpload
          (Some [ {| App.name := "a.xlsx";
                     App.workbook := [("Sheet1", statusRows)] |};
                  {| App.name := "b.xlsx";
                     App.workbook := [("Sheet1", dateRows)] |} ])
          App.initial)).
Proof.
  destruct (selection_stays_listed App.initial) as (H0 & H).
  destruct (H H0) as (Hup & _).
  destruct (selection_stays_listed
              (App.handleFileUpload
                 (Some [ {| App.name := "a.xlsx";
                            App.workbook := [("Sheet1", statusRows)] |};
                         {| App.name := "b.xlsx";
                            App.workbook := [("Sheet1", dateRows)] |} ])
                 App.initial)) as (_ & H').
  destruct (H' (Hup _)) as (_ & Hrm & _).
  apply Hrm.
Defined.

(** X15.  Removing a name drops every listed file of that name and
    keeps the others in their order; when the name is not the
    selected one, the selection, the loaded table and the sheet stay
    as they were; the chat history and the pending query are never
    touched. *)
Theorem removeFile_effect (fileName : string) (st : App.State) :
  let st' := App.removeFile fileName st in
  App.excelFiles st'
    = filter (fun f => negb (String.eqb (App.name f) fileName))
             (App.excelFiles st)
  /\ (forall f, In f (App.excelFiles st') <->
                In f (App.excelFiles st) /\ App.name f <> fileName)
  /\ (App.selectedFile st <> fileName ->
      App.selectedFile st' = App.selectedFile st
      /\ App.excelData st' = App.excelData st
      /\ App.selectedSheet st' = App.selectedSheet st)
  /\ App.chatHistory st' = App.chatHistory st
  /\ App.query st' = App.query st.
Proof.
  intros st'.
  assert (Hfiles : App.excelFiles st'
                   = filter (fun f => negb (String.eqb (App.name f) fileName))
                            (App.excelFiles st)
                   /\ App.chatHistory st' = App.chatHistory st
                   /\ App.query st' = App.query st).
  { unfold st', App.removeFile.
    destruct (String.eqb (App.selectedFile st) fileName);
      [|repeat split; reflexivity].
    destruct (filter _ (App.excelFiles st)) as [|first more] eqn:F;
      [repeat split; reflexivity|].
    destruct (readExcelFile_files first
                (App.setSelectedFile (App.name first)
                   (App.setExcelFiles (first :: more) st)))
      as (-> & _ & -> & ->).
    repeat split; reflexivity. }
  destruct Hfiles as (Hfiles & Hchat & Hquery).
  split; [exact Hfiles|]. split; [|split; [|split]].
  - intros f. rewrite Hfiles, filter_In, negb_true_iff, String.eqb_neq.
    reflexivity.
  - intros Hne. unfold st', App.removeFile.
    apply String.eqb_neq in Hne. rewrite Hne. repeat split; reflexivity.
  - exact Hchat.
  - exact Hquery.
Qed.

Lemma removeFile_effect_witness :
  App.selectedFile
    (App.removeFile "b.xlsx"
       {| App.excelFiles := [ {| App.name := "a.xlsx"; App.workbook := [] |};
                              {| App.name := "b.xlsx"; App.workbook := [] |} ];
          App.selectedFile := "a.xlsx"; App.excelData := None;
          App.selectedSheet := ""; App.query := ""; App.loading := false;
          App.chatHistory := []; App.isFileDrawerOpen := false;
          App.isDarkMode := false |})
    = "a.xlsx".
Proof.
  match goal with
  | |- App.selectedFile (App.removeFile ?n ?s) = _ =>
      destruct (removeFile_effect n s) as (_ & _ & H & _)
  end.
  apply H. discriminate.
Defined.

(** X16.  Removing the selected file when no file of another name is
    listed empties the list, clears the selection and unloads the
    table; from then on a submitted query changes nothing and the
    interpreter answers "No data available" with no rows. *)
Theorem removing_last_file_unloads (fileName : string) (st : App.State) :
  App.selectedFile st = fileName ->
  (forall f, In f (App.excelFiles st) -> App.name f = fileName) ->
  let st' := App.removeFile fileName st in
  App.excelFiles st' = []
  /\ App.selectedFile st' = ""
  /\ App.excelData st' = None
  /\ (forall now q,
        App.chatWithExcel now (App.setQuery q st') = App.setQuery q st')
  /\ (forall q,
        processExcelQuery (App.excelData st') q
          = {| rows := []; summary := "No data available" |}).
Proof.
  intros Hsel Hall st'.
  assert (F : filter (fun f => negb (String.eqb (App.name f) fileName))
                     (App.excelFiles st) = []).
  { apply filter_none. intros f Hf.
    apply negb_false_iff, String.eqb_eq. now apply Hall. }
  assert (E : st' = App.setExcelData None
                      (App.setSelectedFile ""
                         (App.setExcelFiles [] st))).
  { unfold st', App.removeFile. rewrite F.
    apply String.eqb_eq in Hsel. now rewrite Hsel. }
  rewrite E. repeat split; reflexivity.
Qed.

Lemma removing_last_file_unloads_witness :
  App.excelData
    (App.removeFile "a.xlsx"
       (App.handleFileUpload
          (Some [ {| App.name := "a.xlsx";
                     App.workbook := [("Sheet1", statusRows)] |} ])
          App.initial))
    = None.
Proof.
  match goal with
  | |- App.excelData (App.removeFile ?n ?s) = _ =>
      destruct (removing_last_file_unloads n s) as (_ & _ & H & _)
  end.
  - reflexivity.
  - intros f [<-|[]]. reflexivity.
  - exact H.
Defined.

(** X17.  After the selected file is removed while another name is
    listed, the first remaining file is selected.  Its first sheet is
    loaded when it has a sheet; when its workbook has none, the table
    that was loaded before stays loaded. *)
Theorem removing_selected_file_moves_on (fileName : string) (st : App.State)
    (next : App.File) (others : list App.File) :
  App.selectedFile st = fileName ->
  filter (fun f => negb (String.eqb (App.name f) fileName))
         (App.excelFiles st) = next :: others ->
  let st' := App.removeFile fileName st in
  App.selectedFile st' = App.name next
  /\ App.name next <> fileName
  /\ match App.workbook next with
     | [] =>
         App.excelData st' = App.excelData st
         /\ App.selectedSheet st' = App.selectedSheet st
     | (firstSheet, sheetData) :: _ =>
         App.excelData st'
           = Some {| sheets := map fst (App.workbook next);
                     data := sheetData;
                     fileName := App.name next |}
         /\ App.selectedSheet st' = firstSheet
     end.
Proof.
  intros Hsel F st'.
  assert (Hnext : App.name next <> fileName).
  { assert (Hin : In next (filter
                             (fun f => negb (String.eqb (App.name f) fileName))
                             (App.excelFiles st)))
      by (rewrite F; now left).
    apply filter_In in Hin as [_ Hin].
    now apply negb_true_iff, String.eqb_neq in Hin. }
  unfold st', App.removeFile. rewrite F.
  apply String.eqb_eq in Hsel. rewrite Hsel.
  unfold App.readExcelFile.
  destruct (App.workbook next) as [|[firstSheet sheetData] more];
    repeat split; try reflexivity; exact Hnext.
Qed.

Lemma removing_selected_file_moves_on_witness :
  App.selectedFile
    (App.removeFile "a.xlsx"
       (App.handleFileUpload
          (Some [ {| App.name := "a.xlsx";
                     App.workbook := [("Sheet1", statusRows)] |};
                  {| App.name := "b.xlsx"; App.workbook := [] |} ])
          App.initial))
    = "b.xlsx".
Proof.
  match goal with
  | |- App.selectedFile (App.removeFile ?n ?s) = _ =>
      destruct (removing_selected_file_moves_on n s
                  {| App.name := "b.xlsx"; App.workbook := [] |} [])
        as (H & _)
  end.
  - reflexivity.
  - reflexivity.
  - exact H.
Defined.

(** X18.  Submitting a query without filter keyword whose text occurs
    in no cell of the loaded table appends one message to the chat
    history, after the earlier ones, whose response is the paragraph
    "No matching data found in the Excel sheet."; the input is
    cleared.  Sort and summarize keywords do not change this. *)
Theorem unmatched_submit_answer (now : Z) (st : App.State)
    (loaded : ExcelData) :
  App.excelData st = Some loaded ->
  App.query st <> "" ->
  isFilterQuery (toLowerCase (App.query st)) = false ->
  (forall r, In r (data loaded) ->
             matchesSearch (toLowerCase (App.query st)) r = false) ->
  App.chatHistory (App.chatWithExcel now st)
    = (App.chatHistory st
         ++ [ {| App.Message.query := App.query st;
                 App.Message.response := noMatchResponse;
                 App.Message.timestamp := now |} ])%list
  /\ App.query (App.chatWithExcel now st) = ""
  /\ App.loading (App.chatWithExcel now st) = false.
Proof.
  intros Hdata Hq Hf Hnone. unfold App.chatWithExcel. rewrite Hdata.
  apply String.eqb_neq in Hq. rewrite Hq. apply String.eqb_neq in Hq.
  cbn. rewrite Hdata.
  rewrite (unmatched_query_result loaded (App.query st) Hq Hf Hnone).
  repeat split; reflexivity.
Qed.

Lemma unmatched_submit_answer_witness :
  App.chatHistory
    (App.chatWithExcel 0
       (App.setQuery "Sort by date descending"
          (App.handleFileUpload
             (Some [ {| App.name := "a.xlsx";
                        App.workbook := [("Sheet1", dateRows)] |} ])
             App.initial)))
    = [ {| App.Message.query := "Sort by date descending";
           App.Message.response := noMatchResponse;
           App.Message.timestamp := 0 |} ].
Proof.
  match goal with
  | |- App.chatHistory (App.chatWithExcel ?n ?s) = _ =>
      destruct (unmatched_submit_answer n s
                  {| sheets := ["Sheet1"]; data := dateRows;
                     fileName := "a.xlsx" |}) as (H & _)
  end.
  - reflexivity.
  - discriminate.
  - reflexivity.
  - intros r [<-|[<-|[<-|[]]]]; reflexivity.
  - exact H.
Defined.

(* ================================================================= *)
(** ** The sample prepared for analysis *)

(** X19.  The sample holds the first five and the last five rows of
    the table, twice the smaller of five and the row count in all.
    With at least ten rows these are ten different positions of the
    table; with fewer the two ends overlap, and a table of at most
    five rows is sampled twice over. *)
Theorem sample_is_both_ends (d : list row) :
  let a := Analysis.prepareDataForAnalysis d in
  let n := List.length d in
  Analysis.totalRows a = n
  /\ Analysis.sampleData a = (firstn 5 d ++ skipn (n - 5) d)%list
  /\ List.length (Analysis.sampleData a) = (2 * Nat.min 5 n)%nat
  /\ (forall r, In r (Analysis.sampleData a) -> In r d)
  /\ ((n <= 5)%nat -> Analysis.sampleData a = (d ++ d)%list)
  /\ ((10 <= n)%nat ->
      exists middle,
        d = (firstn 5 d ++ middle ++ skipn (n - 5) d)%list
        /\ List.length middle = (n - 10)%nat).
Proof.
  intros a n. subst a. cbn [Analysis.prepareDataForAnalysis
                            Analysis.totalRows Analysis.sampleData].
  fold n.
  split; [reflexivity|]. split; [reflexivity|]. split; [|split; [|split]].
  - rewrite length_app, length_firstn, length_skipn. fold n. lia.
  - intros r Hr. apply in_app_or in Hr as [H|H].
    + rewrite <- (firstn_skipn 5 d). apply in_or_app. now left.
    + rewrite <- (firstn_skipn (n - 5) d). apply in_or_app. now right.
  - intros Hn. rewrite firstn_all2 by (fold n; lia).
    replace (n - 5)%nat with 0%nat by lia. reflexivity.
  - intros Hn. exists (skipn 5 (firstn (n - 5) d)). split.
    + rewrite <- (firstn_skipn (n - 5) d) at 1.
      rewrite <- (firstn_skipn 5 (firstn (n - 5) d)) at 1.
      rewrite firstn_firstn.
      replace (Nat.min 5 (n - 5)) with 5%nat by lia.
      now rewrite <- app_assoc.
    + rewrite length_skipn, length_firstn. fold n. lia.
Qed.

Lemma sample_is_both_ends_witness :
  Analysis.sampleData (Analysis.prepareDataForAnalysis statusRows)
    = (statusRows ++ statusRows)%list.
Proof.
  destruct (sample_is_both_ends statusRows) as (_ & _ & _ & _ & H & _).
  apply H. vm_compute. lia.
Defined.

(* ================================================================= *)
(** ** The earlier search *)

Lemma filter_filter_implied {A : Type} (f g : A -> bool) (l : list A) :
  (forall x, f x = true -> g x = true) ->
  filter f (filter g l) = filter f l.
Proof.
  intros H. induction l as [|x l IH]; simpl; [reflexivity|].
  destruct (g x) eqn:G; simpl.
  - now rewrite IH.
  - destruct (f x) eqn:F; [|exact IH].
    apply H in F. congruence.
Qed.

(** X20.  The earlier search answers [null] only without a table or
    without a query, and otherwise returns the rows the interpreter
    returns for a query with no filter or sort keyword.  Extending
    the query narrows the result: when the lower-cased query [q]
    occurs in the lower-cased query [q'], the rows found for [q'] are
    the rows found for [q] searched again for [q']. *)
Theorem search_narrows (excelData : ExcelData) (q q' : string) :
  q <> "" -> q' <> "" ->
  includes (toLowerCase q') (toLowerCase q) = true ->
  exists found found',
    searchExcelData (Some excelData) q = Some found
    /\ searchExcelData (Some excelData) q' = Some found'
    /\ found' = filter (matchesSearch (toLowerCase q')) found
    /\ (forall r, In r found' -> In r found)
    /\ (isFilterQuery (toLowerCase q) = false ->
        isSortQuery (toLowerCase q) = false ->
        rows (processExcelQuery (Some excelData) q) = found).
Proof.
  intros Hq Hq' Hsub.
  exists (filter (matchesSearch (toLowerCase q)) (data excelData)),
         (filter (matchesSearch (toLowerCase q')) (data excelData)).
  assert (Himp : forall r,
            matchesSearch (toLowerCase q') r = true ->
            matchesSearch (toLowerCase q) r = true).
  { intros r. unfold matchesSearch. rewrite !existsb_exists.
    intros (v & Hv & H). exists v. split; [exact Hv|].
    now apply (includes_trans _ (toLowerCase q')). }
  unfold searchExcelData.
  apply String.eqb_neq in Hq, Hq'. rewrite Hq, Hq'.
  apply String.eqb_neq in Hq, Hq'.
  split; [reflexivity|]. split; [reflexivity|].
  split; [now rewrite filter_filter_implied|]. split.
  - intros r Hr. apply filter_In in Hr as [Hin Hm].
    apply filter_In. split; [exact Hin | now apply Himp].
  - intros Hf Hs. rewrite (processExcelQuery_rows _ _ Hq). cbn [rows].
    now rewrite Hf, Hs.
Qed.

Lemma search_narrows_witness :
  exists found found',
    searchExcelData (workbook statusRows) "o" = Some found
    /\ searchExcelData (workbook statusRows) "OK" = Some found'
    /\ found' = filter (matchesSearch (toLowerCase "OK")) found
    /\ (forall r, In r found' -> In r found)
    /\ (isFilterQuery (toLowerCase "o") = false ->
        isSortQuery (toLowerCase "o") = false ->
        rows (processExcelQuery (workbook statusRows) "o") = found).
Proof.
  apply (search_narrows
           {| sheets := ["Sheet1"]; data := statusRows;
              fileName := "book.xlsx" |} "o" "OK");
    [discriminate | discriminate | reflexivity].
Defined.
